(** * skatehive-transcoder: the transcode request pipeline

    A shallow embedding of the video worker: the rolling operation log
    ([TranscodeLogger], logger.js), the child processes ([runFfmpeg],
    [execProbe]), the [/transcode] handler of the probe-and-remux variant
    of the server, and of server.js its helpers, its dashboard endpoint
    and its [/transcode] handler as far as that one runs, with the
    properties of the natural language specification stated over them.

    JavaScript values are kept as the program has them: numbers are IEEE
    binary64 ([float]), or the integer they equal where a number is the
    result of [parseInt] or an exit code; objects used as records are
    finite maps from field names to values. A string is the sequence of
    its UTF-16 code units, one [ascii] for each: the development covers
    the strings whose code units are all below 256 (ISO 8859-1, which is
    how Node decodes header values), so the no-break space U+00A0 is the
    character 160 and [String.length] is the [length] of the string. *)

From Stdlib Require Import ZArith String Ascii List Bool Lia Floats.
From stdpp Require Import base option list gmap strings pretty.
Import ListNotations.

(** ** JavaScript values and the operators the sources use *)

Module Js.

(** The values the sources handle. [JErr m] is an [Error] object whose
    [message] is [m]: what [throw] and a rejected promise carry there. *)
Inductive JsVal : Type :=
| JUndefined
| JNull
| JBool (b : bool)
| JNum (x : float)
| JStr (s : string)
| JErr (message : string).

(** Plain objects: [{ k: v, ... }]. A field that is absent reads as
    [undefined]. *)
Abbreviation obj := (gmap string JsVal).

Definition get (o : obj) (k : string) : JsVal := default JUndefined (o !! k).

(** [o?.k] where [o] is an object or [undefined]. *)
Definition optGet (o : option obj) (k : string) : JsVal :=
  match o with
  | Some o' => get o' k
  | None => JUndefined
  end.

(** ToBoolean. *)
Definition truthy (v : JsVal) : bool :=
  match v with
  | JUndefined | JNull => false
  | JBool b => b
  | JNum x => negb (PrimFloat.eqb x 0%float) && PrimFloat.eqb x x
  | JStr s => negb (String.eqb s "")
  | JErr _ => true
  end.

(** [v?.message]: the message of an error object, [undefined] on the
    primitive values. *)
Definition messageOf (v : JsVal) : JsVal :=
  match v with
  | JErr m => JStr m
  | _ => JUndefined
  end.

(** [a || b]. *)
Definition jsOr (a b : JsVal) : JsVal := if truthy a then a else b.

(** [a === b] where one side is a primitive value (two error objects are
    compared by identity, which no source does). *)
Definition strictEq (a b : JsVal) : bool :=
  match a, b with
  | JUndefined, JUndefined => true
  | JNull, JNull => true
  | JBool x, JBool y => Bool.eqb x y
  | JNum x, JNum y => PrimFloat.eqb x y
  | JStr x, JStr y => String.eqb x y
  | _, _ => false
  end.

Section Coercions.

(** ECMAScript's StringToNumber is left to the runtime. *)
Variable StringToNumber : string -> float.

(** ToNumber, as the operator [/] applies it to its operands. *)
Definition toNumber (v : JsVal) : float :=
  match v with
  | JUndefined => nan
  | JNull => zero
  | JBool b => if b then one else zero
  | JNum x => x
  | JStr s => StringToNumber s
  | JErr _ => nan
  end.

End Coercions.

(** The number of an array length or of a count. *)
Definition ofNat (n : nat) : float :=
  PrimFloat.of_uint63 (Uint63.of_Z (Z.of_nat n)).

(** [Math.round]: the integer closest to [x], a tie going to the larger
    one; NaN, the infinities and integers are returned unchanged. *)
Definition Math_round (x : float) : float :=
  match Prim2SF x with
  | S754_finite s m e =>
      if (0 <=? e)%Z then x
      else
        let n := if s then Z.neg m else Z.pos m in
        let d := (2 ^ (- e))%Z in
        let r := ((2 * n + d) / (2 * d))%Z in
        if (r =? 0)%Z then (if s then neg_zero else zero)
        else if (r <? 0)%Z
             then PrimFloat.opp (PrimFloat.of_uint63 (Uint63.of_Z (- r)))
             else PrimFloat.of_uint63 (Uint63.of_Z r)
  | _ => x
  end.

(** The integer a number stands for, when it is finite and integral. *)
Definition intValue (x : float) : option Z :=
  match Prim2SF x with
  | S754_zero _ => Some 0%Z
  | S754_finite s m e =>
      let n := if s then Z.neg m else Z.pos m in
      if (0 <=? e)%Z then Some (n * 2 ^ e)%Z
      else if (n mod 2 ^ (- e) =? 0)%Z then Some (n / 2 ^ (- e))%Z
           else None
  | _ => None
  end.

(** [s.slice(-n)] for [n > 0]: the last [n] code units of [s], all of
    [s] when it is shorter. *)
Definition sliceLast (n : nat) (s : string) : string :=
  String.substring (String.length s - n) n s.

(** [s.substring(0, n)] and [s.slice(0, n)]: the first [n] code units. *)
Definition takeStr (n : nat) (s : string) : string := String.substring 0 n s.

(** [arr.slice(start)] with a relative start: a negative [start] counts
    from the end, and both are clamped to the array. *)
Definition sliceFrom {A : Type} (start : Z) (l : list A) : list A :=
  let len := Z.of_nat (List.length l) in
  let k := if (start <? 0)%Z then Z.max (len + start) 0 else Z.min start len in
  drop (Z.to_nat k) l.

(** [s.includes(t)]. *)
Fixpoint includes (t s : string) : bool :=
  String.prefix t s
  || match s with
     | EmptyString => false
     | String _ s' => includes t s'
     end.

(** [s.toLowerCase()]: the capital letters below 256 are A to Z and
    U+00C0 to U+00DE without the multiplication sign U+00D7. *)
Definition lowerChar (c : ascii) : ascii :=
  let n := nat_of_ascii c in
  if ((65 <=? n) && (n <=? 90))%nat then ascii_of_nat (n + 32)
  else if ((192 <=? n) && (n <=? 222) && negb (n =? 215))%nat then ascii_of_nat (n + 32)
  else c.

Fixpoint toLowerCase (s : string) : string :=
  match s with
  | EmptyString => EmptyString
  | String c s' => String (lowerChar c) (toLowerCase s')
  end.

(** White space and line terminators, as [trim] and [parseInt] skip
    them: below 256 these are TAB, LF, VT, FF, CR, SP and the no-break
    space U+00A0, which is one code unit, [noBreakSpace] (in a string
    literal of this file a character above 127 would stand for the
    several bytes of its UTF-8 form, that is for several code units). *)
Definition noBreakSpace : ascii := ascii_of_nat 160.

Definition isSpace (c : ascii) : bool :=
  let n := nat_of_ascii c in
  ((9 <=? n) && (n <=? 13))%nat || (n =? 32)%nat || (n =? 160)%nat.

Fixpoint trimStart (s : string) : string :=
  match s with
  | String c s' => if isSpace c then trimStart s' else s
  | EmptyString => EmptyString
  end.

Fixpoint allSpaces (s : string) : bool :=
  match s with
  | EmptyString => true
  | String c s' => isSpace c && allSpaces s'
  end.

Fixpoint trimEnd (s : string) : string :=
  match s with
  | EmptyString => EmptyString
  | String c s' => if allSpaces s then EmptyString else String c (trimEnd s')
  end.

(** [s.trim()]. *)
Definition trim (s : string) : string := trimEnd (trimStart s).

(** *** Numbers that are integers

    A number that is an integer is kept as the integer it equals. Not
    every integer is a number: from [2^53] on only the multiples of a
    power of two are. [toDouble m] is the number nearest to the integer
    [m >= 0], a tie going to the even mantissa; [None] is [Infinity]. *)
Definition toDouble (m : Z) : option Z :=
  if (m <? 2 ^ 53)%Z then Some m
  else
    let sh := (Z.log2 m - 52)%Z in
    let q := Z.shiftr m sh in
    let r := (m - Z.shiftl q sh)%Z in
    let half := Z.shiftl 1 (sh - 1) in
    let q' := if (half <? r)%Z || ((r =? half)%Z && Z.odd q) then (q + 1)%Z else q in
    let v := Z.shiftl q' sh in
    if (2 ^ 1024 <=? v)%Z then None else Some v.

Definition roundsTo (z x : Z) : bool :=
  match toDouble x with
  | Some y => (y =? z)%Z
  | None => false
  end.

(** Number::toString on a positive integer [z]: the digits are those of
    the least [k] for which some [s] of [k] digits has [s * 10^(n-k)]
    round to [z], and of the [s] nearest to [z] among these. *)
Definition decimals (z : Z) : nat := String.length (pretty z).

Definition fits (z : Z) (k n : nat) (s : Z) : bool :=
  (10 ^ Z.of_nat (k - 1) <=? s)%Z && (s <? 10 ^ Z.of_nat k)%Z
  && roundsTo z (s * 10 ^ Z.of_nat (n - k)).

Definition candidatesAt (z : Z) (k n : nat) : list (Z * nat) :=
  if (n <? k)%nat then []
  else
    let s := (z / 10 ^ Z.of_nat (n - k))%Z in
    List.map (fun s' => (s', n)) (List.filter (fits z k n) [s; (s + 1)%Z]).

Definition distance (z : Z) (k : nat) (c : Z * nat) : Z :=
  Z.abs (fst c * 10 ^ Z.of_nat (snd c - k) - z).

Definition nearer (z : Z) (k : nat) (a b : Z * nat) : Z * nat :=
  if (distance z k b <? distance z k a)%Z then b
  else if (distance z k b =? distance z k a)%Z && Z.even (fst b) then b
  else a.

Fixpoint shortest (fuel k : nat) (z : Z) : option (Z * nat * nat) :=
  match fuel with
  | O => None
  | S fuel' =>
      match candidatesAt z k (decimals z) ++ candidatesAt z k (S (decimals z)) with
      | [] => shortest fuel' (S k) z
      | c :: cs => let '(s, n) := fold_left (nearer z k) cs c in Some (s, n, k)
      end
  end.

Definition zeros (n : nat) : string := string_of_list_ascii (repeat "0"%char n).

(** The digits of [s] with the decimal point after [n] digits: in full up
    to 21 digits, with an exponent beyond. *)
Definition showDigits (s : Z) (n k : nat) : string :=
  if (n <=? 21)%nat then pretty s +:+ zeros (n - k)
  else
    match pretty s with
    | String d EmptyString => String d EmptyString +:+ "e+" +:+ pretty (Z.of_nat (n - 1))
    | String d rest => String d ("." +:+ rest) +:+ "e+" +:+ pretty (Z.of_nat (n - 1))
    | EmptyString => EmptyString
    end.

(** Below [2^53] every integer is a number and no shorter digits round
    to it than its own. *)
Definition showPositive (z : Z) : string :=
  if (z <? 2 ^ 53)%Z then pretty z
  else
    match shortest 17 1 z with
    | Some (s, n, k) => showDigits s n k
    | None => pretty z
    end.

(** [`${z}`] and [String(z)] for a number that is the integer [z]. *)
Definition showInteger (z : Z) : string :=
  match z with
  | Z0 => "0"
  | Zpos _ => showPositive z
  | Zneg _ => "-" +:+ showPositive (- z)
  end.

(** The result of [parseInt]: NaN, an infinity, or a number that is an
    integer. *)
Inductive ParsedInt : Type :=
| PNaN
| PInfinity (negative : bool)
| PInt (z : Z).

Definition digitOf (c : ascii) : option Z :=
  let n := nat_of_ascii c in
  if ((48 <=? n) && (n <=? 57))%nat then Some (Z.of_nat (n - 48)) else None.

(** The longest prefix of decimal digits of [s], read after [acc]. *)
Fixpoint readDigits (acc : option Z) (s : string) : option Z :=
  match s with
  | EmptyString => acc
  | String c s' =>
      match digitOf c with
      | Some d => readDigits (Some (10 * default 0%Z acc + d)%Z) s'
      | None => acc
      end
  end.

(** The number of the integer that was read, with its sign. *)
Definition signedNumber (negative : bool) (z : Z) : ParsedInt :=
  match toDouble z with
  | Some d => PInt (if negative then - d else d)%Z
  | None => PInfinity negative
  end.

(** [parseInt(s, 10)]: leading white space is skipped, a sign may follow,
    then the digits; no digit gives NaN, otherwise the integer read is
    rounded to a number. (Beyond 20 significant digits ECMAScript lets an
    engine read an approximation of the digits; the integer is taken as
    written here.) *)
Definition parseInt10 (s : string) : ParsedInt :=
  let t := trimStart s in
  let '(negative, digits) :=
    match t with
    | String "-" r => (true, r)
    | String "+" r => (false, r)
    | _ => (false, t)
    end in
  match readDigits None digits with
  | None => PNaN
  | Some z => signedNumber negative z
  end.

(** [n && Number.isFinite(n)] for a parsed number [n]. *)
Definition truthyFinite (n : ParsedInt) : bool :=
  match n with
  | PInt z => negb (z =? 0)%Z
  | _ => false
  end.

(** [v || d] for a string that may be missing, as in [process.env.X || d]:
    a missing or empty string gives the default. *)
Definition strOr (v : option string) (d : string) : string :=
  match v with
  | Some s => if String.eqb s "" then d else s
  | None => d
  end.

(** [s.replace(/\/+$/, '')]: the match starts at the first position from
    which only slashes follow up to the end of [s]. *)
Fixpoint allSlashes (s : string) : bool :=
  match s with
  | EmptyString => true
  | String c s' => Ascii.eqb c "/" && allSlashes s'
  end.

Fixpoint stripSlashes (s : string) : string :=
  match s with
  | EmptyString => EmptyString
  | String c s' =>
      if Ascii.eqb c "/" && allSlashes s' then EmptyString
      else String c (stripSlashes s')
  end.

(** [arr.find(p)]. *)
Definition find {A : Type} (p : A -> bool) (l : list A) : option A :=
  List.find p l.

End Js.

(** ** The operation recorder (logger.js) *)

Module Logger.
Import Js.

Record TranscodeLogger : Type := {
  logFilePath : string;
  maxLogs : Z;
  logs : list obj
}.

Definition setLogs (l : list obj) (L : TranscodeLogger) : TranscodeLogger :=
  {| logFilePath := logFilePath L; maxLogs := maxLogs L; logs := l |}.

(** What [loadLogs] finds on disk: no file, a file that cannot be read,
    or the non-blank lines of the file, each with the outcome of
    [JSON.parse] on it ([None] when it throws). *)
Inductive FileRead : Type :=
| NoFile
| Unreadable
| Lines (ls : list (option obj)).

Fixpoint parseAll (ls : list (option obj)) : option (list obj) :=
  match ls with
  | [] => Some []
  | None :: _ => None
  | Some o :: rest =>
      match parseAll rest with
      | Some os => Some (o :: os)
      | None => None
      end
  end.

Definition loadLogs (r : FileRead) (L : TranscodeLogger) : TranscodeLogger :=
  match r with
  | NoFile => L
  | Unreadable => setLogs [] L
  | Lines ls =>
      match parseAll ls with
      | Some os => setLogs (sliceFrom (- maxLogs L) os) L
      | None => setLogs [] L
      end
  end.

(** [new TranscodeLogger(logFilePath, maxLogs)]. *)
Definition create (path : string) (max : Z) (r : FileRead) : TranscodeLogger :=
  loadLogs r {| logFilePath := path; maxLogs := max; logs := [] |}.

(** [new TranscodeLogger()]. *)
Definition createDefault (r : FileRead) : TranscodeLogger :=
  create "logs/transcode.log" 100 r.

(** [saveLogs]: the truncation happens first and in memory; the write of
    the file that follows is caught when it fails and does not change
    [logs]. *)
Definition saveLogs (L : TranscodeLogger) : TranscodeLogger :=
  setLogs (sliceFrom (- maxLogs L) (logs L)) L.

Definition enrich (timestamp : string) (logEntry : obj) : obj :=
  <["id" := jsOr (get logEntry "id") (JStr "unknown")]>
    (<["timestamp" := JStr timestamp]> logEntry).

(** [addLog(logEntry)], [timestamp] being [new Date().toISOString()]; the
    lines it prints to the console are left out. *)
Definition addLog (timestamp : string) (logEntry : obj) (L : TranscodeLogger)
  : TranscodeLogger :=
  saveLogs (setLogs (logs L ++ [enrich timestamp logEntry]) L).

Record StartInfo : Type := {
  s_id : JsVal;
  s_user : JsVal;
  s_filename : JsVal;
  s_fileSize : JsVal;
  s_clientIP : JsVal;
  s_userAgent : option string;
  s_origin : JsVal;
  s_platform : JsVal;
  s_deviceInfo : JsVal;
  s_browserInfo : JsVal;
  s_userHP : JsVal;
  s_correlationId : JsVal;
  s_viewport : JsVal;
  s_connectionType : JsVal
}.

Definition startEntry (startTime : float) (a : StartInfo) : obj :=
  list_to_map
    [ ("id", s_id a);
      ("status", JStr "started");
      ("user", jsOr (s_user a) (JStr "anonymous"));
      ("filename", s_filename a);
      ("fileSize", s_fileSize a);
      ("clientIP", s_clientIP a);
      ("userAgent", match s_userAgent a with
                    | Some ua => JStr (takeStr 100 ua)
                    | None => JUndefined
                    end);
      ("origin", s_origin a);
      ("platform", jsOr (s_platform a) (JStr "unknown"));
      ("deviceInfo", jsOr (s_deviceInfo a) (JStr "unknown"));
      ("browserInfo", jsOr (s_browserInfo a) (JStr ""));
      ("userHP", jsOr (s_userHP a) (JNum zero));
      ("correlationId", jsOr (s_correlationId a) JNull);
      ("viewport", jsOr (s_viewport a) JNull);
      ("connectionType", jsOr (s_connectionType a) JNull);
      ("startTime", JNum startTime) ].

(** [logTranscodeStart], [startTime] being [Date.now()]. *)
Definition logTranscodeStart (startTime : float) (timestamp : string)
    (a : StartInfo) (L : TranscodeLogger) : TranscodeLogger :=
  addLog timestamp (startEntry startTime a) L.

(** The start log of a request:
    [this.logs.find(log => log.id === id && log.status === 'started')]. *)
Definition isStartOf (id : JsVal) (log : obj) : bool :=
  strictEq (get log "id") id && strictEq (get log "status") (JStr "started").

Definition findStart (id : JsVal) (L : TranscodeLogger) : option obj :=
  find (isStartOf id) (logs L).

(** The fields a terminal record takes over from the start log. *)
Definition contextFields : list string :=
  [ "platform"; "deviceInfo"; "browserInfo"; "userHP"; "correlationId";
    "viewport"; "connectionType" ].

Record CompleteInfo : Type := {
  c_id : JsVal;
  c_user : JsVal;
  c_filename : JsVal;
  c_cid : JsVal;
  c_gatewayUrl : JsVal;
  c_duration : JsVal;
  c_clientIP : JsVal
}.

Definition completeEntry (startLog : option obj) (a : CompleteInfo) : obj :=
  list_to_map
    [ ("id", c_id a);
      ("status", JStr "completed");
      ("user", jsOr (c_user a) (JStr "anonymous"));
      ("filename", c_filename a);
      ("cid", c_cid a);
      ("gatewayUrl", c_gatewayUrl a);
      ("duration", c_duration a);
      ("clientIP", c_clientIP a);
      ("success", JBool true);
      ("platform", jsOr (optGet startLog "platform") JNull);
      ("deviceInfo", jsOr (optGet startLog "deviceInfo") JNull);
      ("browserInfo", jsOr (optGet startLog "browserInfo") JNull);
      ("userHP", jsOr (optGet startLog "userHP") JNull);
      ("correlationId", jsOr (optGet startLog "correlationId") JNull);
      ("viewport", jsOr (optGet startLog "viewport") JNull);
      ("connectionType", jsOr (optGet startLog "connectionType") JNull) ].

Definition logTranscodeComplete (timestamp : string) (a : CompleteInfo)
    (L : TranscodeLogger) : TranscodeLogger :=
  let startLog := findStart (c_id a) L in
  addLog timestamp (completeEntry startLog a) L.

Record ErrorInfo : Type := {
  e_id : JsVal;
  e_user : JsVal;
  e_filename : JsVal;
  e_error : JsVal;
  e_duration : JsVal;
  e_clientIP : JsVal
}.

Definition failedEntry (startLog : option obj) (a : ErrorInfo) : obj :=
  list_to_map
    [ ("id", e_id a);
      ("status", JStr "failed");
      ("user", jsOr (e_user a) (JStr "anonymous"));
      ("filename", e_filename a);
      ("error", jsOr (jsOr (messageOf (e_error a)) (e_error a))
                     (JStr "Unknown error"));
      ("duration", e_duration a);
      ("clientIP", e_clientIP a);
      ("success", JBool false);
      ("platform", jsOr (optGet startLog "platform") JNull);
      ("deviceInfo", jsOr (optGet startLog "deviceInfo") JNull);
      ("browserInfo", jsOr (optGet startLog "browserInfo") JNull);
      ("userHP", jsOr (optGet startLog "userHP") JNull);
      ("correlationId", jsOr (optGet startLog "correlationId") JNull);
      ("viewport", jsOr (optGet startLog "viewport") JNull);
      ("connectionType", jsOr (optGet startLog "connectionType") JNull) ].

Definition logTranscodeError (timestamp : string) (a : ErrorInfo)
    (L : TranscodeLogger) : TranscodeLogger :=
  let startLog := findStart (e_id a) L in
  addLog timestamp (failedEntry startLog a) L.

(** A run of appends, each with the time stamp it gets. *)
Definition appendAll (es : list (string * obj)) (L : TranscodeLogger)
  : TranscodeLogger :=
  fold_left (fun L' e => addLog (fst e) (snd e) L') es L.

(** [getRecentLogs(limit)]: most recent first. *)
Definition getRecentLogs (limit : Z) (L : TranscodeLogger) : list obj :=
  rev (sliceFrom (- limit) (logs L)).

Record Stats : Type := {
  total : nat;
  successful : nat;
  failed : nat;
  inProgress : nat;
  avgDuration : float;
  successRate : float
}.

Definition isSuccess (log : obj) : bool := strictEq (get log "success") (JBool true).
Definition isFailure (log : obj) : bool := strictEq (get log "success") (JBool false).
Definition isInProgress (log : obj) : bool :=
  strictEq (get log "status") (JStr "started")
  || strictEq (get log "status") (JStr "processing").

(** The records the average runs over:
    [log => log.duration && log.success === true]. *)
Definition timed (log : obj) : bool := truthy (get log "duration") && isSuccess log.

Section Stats.

Variable StringToNumber : string -> float.

(** [arr.reduce((sum, log, _, arr) => sum + log.duration / arr.length, 0)]. *)
Definition meanOf (arr : list obj) : float :=
  fold_left
    (fun sum log =>
       PrimFloat.add sum
         (PrimFloat.div (toNumber StringToNumber (get log "duration"))
                        (ofNat (List.length arr))))
    arr zero.

Definition getStats (L : TranscodeLogger) : Stats :=
  let total := List.length (logs L) in
  let successful := List.length (List.filter isSuccess (logs L)) in
  let failed := List.length (List.filter isFailure (logs L)) in
  let inProgress := List.length (List.filter isInProgress (logs L)) in
  let avgDuration := meanOf (List.filter timed (logs L)) in
  {| total := total;
     successful := successful;
     failed := failed;
     inProgress := inProgress;
     avgDuration := Math_round avgDuration;
     successRate :=
       if (0 <? total)%nat
       then Math_round (PrimFloat.mul (PrimFloat.div (ofNat successful) (ofNat total))
                                      (ofNat 100))
       else zero |}.

End Stats.

End Logger.

(** ** The ffmpeg child process (server.js, [runFfmpeg]) *)

Module Ffmpeg.
Import Js.

(** One run of a child that was started: the chunks of its standard
    error in the order of the ['data'] events, each as the string
    [d.toString()] makes of the buffer, and the exit code of the ['close']
    event ([None] for [null], when a signal ended it). *)
Record Run : Type := {
  chunks : list string;
  exitCode : option Z
}.

(** [stderr += d.toString()] over all chunks. *)
Definition stderrOf (r : Run) : string :=
  fold_left (fun acc d => acc +:+ d) (chunks r) EmptyString.

(** The exit code inside a template literal: a number that is an integer,
    or [null]. *)
Definition showCode (code : option Z) : string :=
  match code with
  | Some z => showInteger z
  | None => "null"
  end.

(** How the promise settles: [resolve({ ok: true })] or [reject(new Error(..))]. *)
Inductive Settled : Type :=
| Resolved
| Rejected (message : string).

Definition tailLimit : nat := 4000.

Definition failureMessage (code : option Z) (stderr : string) : string :=
  "ffmpeg exited with " +:+ showCode code +:+ ": " +:+ sliceLast tailLimit stderr.

(** The ['close'] handler: [code === 0] resolves, anything else rejects.
    The progress lines found in the chunks go to the console only. *)
Definition onClose (r : Run) : Settled :=
  match exitCode r with
  | Some 0%Z => Resolved
  | code => Rejected (failureMessage code (stderrOf r))
  end.

(** What becomes of the child [spawn] returns: it runs until its streams
    close, or it cannot be started (the command is not found, say) and
    emits ['error'] instead. *)
Inductive Child (R : Type) : Type :=
| Closes (run : R)
| FailsToStart (error : string).

Arguments Closes {R} run.
Arguments FailsToStart {R} error.

(** How a call that spawns a child ends for the caller that awaits it:
    its promise settles, or nothing ever settles it. The sources register
    ['data'] and ['close'] listeners only; the ['error'] event of a child
    that fails to start has no listener and is thrown as an uncaught
    exception, which ends the process. *)
Inductive Outcome (A : Type) : Type :=
| Settles (a : A)
| Uncaught (error : string).

Arguments Settles {A} a.
Arguments Uncaught {A} error.

(** [runFfmpeg(args)]. *)
Definition runFfmpeg (c : Child Run) : Outcome Settled :=
  match c with
  | Closes r => Settles (onClose r)
  | FailsToStart e => Uncaught e
  end.

End Ffmpeg.

(** ** The probing server: [execProbe] and the remux decision *)

Module ProbeServer.
Import Js.

(** What [ffprobe] leaves behind: its exit code, its standard error, and
    what the [try] block of the ['close'] handler makes of its standard
    output: an error ([JSON.parse] throws, or the parsed value is not an
    object with streams to search), or the [streams] member of the parsed
    value, when it has one. *)
Inductive ProbeOutput : Type :=
| Unparsable (message : string)
| Parsed (streams : option (list obj)).

Record ProbeRun : Type := {
  probeCode : option Z;
  probeErr : string;
  probeOut : ProbeOutput
}.

Record Info : Type := {
  vcodec : JsVal;
  acodec : JsVal;
  width : JsVal;
  height : JsVal
}.

Definition isType (t : string) (stream : obj) : bool :=
  strictEq (get stream "codec_type") (JStr t).

(** The ['close'] handler of [execProbe]: the profile, or the message of
    the rejection. *)
Definition probeOnClose (r : ProbeRun) : Info + string :=
  match probeCode r with
  | Some 0%Z =>
      match probeOut r with
      | Unparsable m => inr m
      | Parsed data_streams =>
          let streams := default [] data_streams in
          let v := find (isType "video") streams in
          let a := find (isType "audio") streams in
          inl {| vcodec := jsOr (optGet v "codec_name") JNull;
                 acodec := jsOr (optGet a "codec_name") JNull;
                 width := jsOr (optGet v "width") JNull;
                 height := jsOr (optGet v "height") JNull |}
      end
  | _ => inr ("ffprobe failed: " +:+ probeErr r)
  end.

(** [execProbe(inputPath)]: like [runFfmpeg], it has no ['error']
    listener. *)
Definition execProbe (c : Ffmpeg.Child ProbeRun) : Ffmpeg.Outcome (Info + string) :=
  match c with
  | Ffmpeg.Closes r => Ffmpeg.Settles (probeOnClose r)
  | Ffmpeg.FailsToStart e => Ffmpeg.Uncaught e
  end.

(** The tuning knobs read from the environment. *)
Record Config : Type := {
  FFMPEG_THREADS : option string;
  X264_PRESET : option string;
  X264_CRF : option string;
  AAC_BITRATE : option string;
  FFMPEG_MAX_HEIGHT : option string
}.

(** [process.env.FFMPEG_MAX_HEIGHT ? parseInt(.., 10) : null]. *)
Definition maxH (c : Config) : option ParsedInt :=
  match FFMPEG_MAX_HEIGHT c with
  | Some s => if String.eqb s "" then None else Some (parseInt10 s)
  | None => None
  end.

(** The height the scale filter is given, when the filter is passed:
    [maxH && Number.isFinite(maxH)]. *)
Definition scaleHeight (c : Config) : option Z :=
  match maxH c with
  | Some n =>
      if truthyFinite n
      then match n with PInt z => Some z | _ => None end
      else None
  | None => None
  end.

Definition remuxArgs (inputPath outputPath : string) : list string :=
  ["-y"; "-i"; inputPath; "-c"; "copy"; "-movflags"; "+faststart"; outputPath].

Definition encodeArgs (c : Config) (inputPath outputPath : string) : list string :=
  ["-y"; "-i"; inputPath]
  ++ match scaleHeight c with
     | Some h => ["-vf"; "scale=-2:" +:+ showInteger h]
     | None => []
     end
  ++ ["-c:v"; "libx264";
      "-preset"; strOr (X264_PRESET c) "veryfast";
      "-crf"; strOr (X264_CRF c) "22";
      "-threads"; strOr (FFMPEG_THREADS c) "1";
      "-c:a"; "aac";
      "-b:a"; strOr (AAC_BITRATE c) "128k";
      "-movflags"; "+faststart";
      outputPath].

(** [info.vcodec === 'h264' && info.acodec === 'aac']. *)
Definition alreadyCompatible (info : Info) : bool :=
  strictEq (vcodec info) (JStr "h264") && strictEq (acodec info) (JStr "aac").

(** The arguments [runFfmpeg] is called with. *)
Definition transcodeArgs (info : Info) (c : Config) (inputPath outputPath : string)
  : list string :=
  if alreadyCompatible info then remuxArgs inputPath outputPath
  else encodeArgs c inputPath outputPath.

(** The gateway of this variant is stripped once, when the module loads. *)
Definition PINATA_GATEWAY (env : option string) : string :=
  stripSlashes (strOr env "https://gateway.pinata.cloud/ipfs").

Definition gatewayUrl (env : option string) (cid : string) : string :=
  PINATA_GATEWAY env +:+ "/" +:+ cid.

End ProbeServer.

(** ** The logging server (server.js) *)

Module Server.
Import Js Logger.

Definition dquote : string := String (ascii_of_nat 34) EmptyString.

Definition parseDeviceInfo (userAgent providedDeviceInfo : string) : string :=
  if negb (String.eqb providedDeviceInfo "") then providedDeviceInfo
  else
    let ua := toLowerCase userAgent in
    let deviceType :=
      if includes "mobile" ua || includes "android" ua then "mobile"
      else if includes "tablet" ua || includes "ipad" ua then "tablet"
      else "desktop" in
    let os :=
      if includes "windows" ua then "windows"
      else if includes "mac" ua then "macos"
      else if includes "linux" ua then "linux"
      else if includes "android" ua then "android"
      else if includes "iphone" ua || includes "ipad" ua then "ios"
      else "unknown" in
    let browser :=
      if includes "chrome" ua && negb (includes "edg" ua) then "chrome"
      else if includes "firefox" ua then "firefox"
      else if includes "safari" ua && negb (includes "chrome" ua) then "safari"
      else if includes "edg" ua then "edge"
      else "unknown" in
    deviceType +:+ "/" +:+ os +:+ "/" +:+ browser.

(** [req.file], as multer leaves it. *)
Record UploadedFile : Type := {
  originalname : string;
  size : float;
  path : string
}.

Record Request : Type := {
  ip : option string;
  remoteAddress : option string;
  userAgentHeader : option string;
  originHeader : option string;
  refererHeader : option string;
  file : option UploadedFile;
  body : gmap string string
}.

Record Env : Type := {
  PINATA_JWT : option string;
  PINATA_GATEWAY : option string;
  X264_PRESET : option string;
  X264_CRF : option string;
  AAC_BITRATE : option string;
  tmpdir : string
}.

(** What the pinning service answers: a rejection of the request, or a
    response whose [data] may be missing and may lack [IpfsHash]. *)
Inductive UploadOutcome : Type :=
| UploadRejected (message : string)
| UploadResolved (data : option (option string)).

(** What the handler reads from outside in its first declarations:
    [uuidv4()] and [Date.now()]. *)
Record Outside : Type := {
  uuidRequest : string;
  startTime : float
}.

(** The calls a handler makes to the outside. *)
Inductive Event : Type :=
| Spawned (args : list string)
| Posted (file : string)
| Unlinked (path : string) (removed : bool).

(** The world of the handler: the recorder, the files of the temporary
    directory (each with whether it may be removed), and the calls made
    to the outside so far, oldest first. *)
Record World : Type := {
  logger : TranscodeLogger;
  disk : gmap string bool;
  trace : list Event
}.

Record Response : Type := {
  status : Z;
  json : obj
}.

(** [fs.unlinkSync(p)]: the message of the error, or the disk without [p]. *)
Definition unlinkSync (p : string) (d : gmap string bool) : string + gmap string bool :=
  match d !! p with
  | None => inl ("ENOENT: no such file or directory, unlink '" +:+ p +:+ "'")
  | Some false => inl ("EPERM: operation not permitted, unlink '" +:+ p +:+ "'")
  | Some true => inr (delete p d)
  end.

(** [path.join(os.tmpdir(), name)] for a directory without a trailing
    separator. *)
Definition pathJoin (dir name : string) : string := dir +:+ "/" +:+ name.

(** [`${PINATA_GATEWAY.replace(/\/+$/, '')}/${cid}`]. *)
Definition gatewayUrl (env : Env) (cid : option string) : string :=
  stripSlashes (strOr (PINATA_GATEWAY env) "https://gateway.pinata.cloud/ipfs")
  +:+ "/" +:+ default "undefined" cid.

Definition optStr (v : option string) : JsVal :=
  match v with
  | Some s => JStr s
  | None => JUndefined
  end.

Definition noFileMessage : string :=
  "No file uploaded. Send multipart/form-data with field "
  +:+ dquote +:+ "video" +:+ dquote +:+ ".".

Definition whenSet (k : string) (v : string) (o : obj) : obj :=
  if String.eqb v "" then o else <[k := JStr v]> o.

(** *** Identifiers

    The names the module binds (its imports, lines 1-12, and its
    declarations at top level, lines 14-161), the globals of Node the file
    names, and the names the handler declares: its parameters, the
    constants of its body (lines 165-216) and those of its [try] and
    [catch] blocks. *)
Definition moduleNames : list string :=
  [ "express"; "multer"; "spawn"; "fs"; "path"; "os"; "morgan"; "axios";
    "FormData"; "uuidv4"; "TranscodeLogger";
    "app"; "logger"; "PORT"; "PINATA_JWT"; "PINATA_GATEWAY"; "upload";
    "parseDeviceInfo"; "runFfmpeg" ].

Definition globalNames : list string :=
  [ "process"; "console"; "Date"; "JSON"; "Error"; "Infinity"; "parseInt";
    "Promise" ].

Definition parameterNames : list string := [ "req"; "res" ].

Definition handlerNames : list string :=
  [ "requestId"; "startTime"; "clientIP"; "userAgent"; "origin";
    "creator"; "platform"; "deviceInfo"; "browserInfo"; "userHP";
    "correlationId"; "viewport"; "connectionType"; "deviceDetails";
    "duration"; "inputPath"; "outName"; "outputPath" ].

Definition blockNames : list string :=
  [ "ffArgs"; "thumbnailRaw"; "thumbnail"; "form"; "metadata"; "options";
    "resp"; "cid"; "gatewayUrl"; "totalDuration"; "err" ].

(** A name that some declaration around the body of the handler binds. *)
Definition bound (x : string) : bool :=
  existsb (String.eqb x)
    (blockNames ++ handlerNames ++ parameterNames ++ moduleNames ++ globalNames).

(** The error of reading [x] where it has no value: the name is bound
    nowhere, or its declaration has not been evaluated yet. *)
Definition referenceError (x : string) : JsVal :=
  if bound x then JErr ("Cannot access '" +:+ x +:+ "' before initialization")
  else JErr (x +:+ " is not defined").

(** The declarations the body of the handler starts with, lines 165-181,
    in order: the line, the constant it declares, and the identifiers its
    initialiser reads. None of the initialisers acts on the recorder, the
    response, the disk or a child: they call [uuidv4], [Date.now],
    [req.get], [formData.get] and [parseDeviceInfo]. *)
Record Declaration : Type := {
  line : nat;
  declares : string;
  reads : list string
}.

Definition declarations : list Declaration :=
  [ {| line := 165; declares := "requestId"; reads := ["uuidv4"] |};
    {| line := 166; declares := "startTime"; reads := ["Date"] |};
    {| line := 167; declares := "clientIP"; reads := ["req"] |};
    {| line := 168; declares := "userAgent"; reads := ["req"] |};
    {| line := 169; declares := "origin"; reads := ["req"] |};
    {| line := 173; declares := "creator"; reads := ["formData"] |};
    {| line := 174; declares := "platform"; reads := ["formData"] |};
    {| line := 175; declares := "deviceInfo"; reads := ["formData"] |};
    {| line := 176; declares := "browserInfo"; reads := ["formData"] |};
    {| line := 177; declares := "userHP"; reads := ["formData"] |};
    {| line := 178; declares := "correlationId"; reads := ["formData"] |};
    {| line := 179; declares := "viewport"; reads := ["formData"] |};
    {| line := 180; declares := "connectionType"; reads := ["formData"] |};
    {| line := 181; declares := "deviceDetails";
       reads := ["parseDeviceInfo"; "userAgent"; "deviceInfo"] |} ].

(** The first declaration whose initialiser reads a name that has no
    value when it is evaluated, [known] being the names that have one. *)
Fixpoint firstThrow (known : list string) (ds : list Declaration) : option (nat * string) :=
  match ds with
  | [] => None
  | d :: rest =>
      match List.find (fun x => negb (existsb (String.eqb x) known)) (reads d) with
      | Some x => Some (line d, x)
      | None => firstThrow (declares d :: known) rest
      end
  end.

(** How a call of the handler ends: it has sent a response; or its body
    threw outside any [try], which rejects the promise of the [async]
    function with nothing sent. [Continues] stands for a body that gets
    past the declarations modelled here. *)
Inductive Outcome : Type :=
| Responded (r : Response)
| Threw (error : JsVal)
| Continues.

(** [app.post('/transcode', ...)]: the declarations are evaluated in
    order, in the scope of the parameters, the module and the globals. The
    first one that throws ends the call; it stands before
    [logTranscodeStart] (line 184), the test of [req.file] (line 201) and
    the [try] statement (line 218). *)
Definition transcode (env : Env) (out : Outside) (req : Request) (w : World)
  : World * Outcome :=
  match firstThrow (parameterNames ++ moduleNames ++ globalNames) declarations with
  | Some (_, x) => (w, Threw (referenceError x))
  | None => (w, Continues)
  end.

End Server.

(** ** Statistics of the recorder *)

Module StatsSpec.
Import Js Logger.

(** The rate as the specification words it: [100 * successful / total]
    as a rational, rounded to the nearest integer, a half going up; [0]
    for an empty recorder. *)
Definition specSuccessRate (successful total : nat) : Z :=
  if (total =? 0)%nat then 0%Z
  else ((200 * Z.of_nat successful + Z.of_nat total) / (2 * Z.of_nat total))%Z.

(** The rate of the source on given counts. *)
Definition rateOf (successful total : nat) : float :=
  if (0 <? total)%nat
  then Math_round (PrimFloat.mul (PrimFloat.div (ofNat successful) (ofNat total))
                                 (ofNat 100))
  else zero.

(** The two count pairs, up to 100 records, on which the double
    [(successful / total) * 100] falls just below the half. *)
Definition belowHalf (successful total : nat) : bool :=
  ((successful =? 23) && (total =? 40))%nat || ((successful =? 46) && (total =? 80))%nat.

Definition expectedRate (successful total : nat) : Z :=
  if belowHalf successful total then 57%Z else specSuccessRate successful total.

Definition rateAgrees (total successful : nat) : bool :=
  match intValue (rateOf successful total) with
  | Some z => (z =? expectedRate successful total)%Z
  | None => false
  end.

Definition rateTable (bound : nat) : bool :=
  forallb (fun t => forallb (rateAgrees t) (seq 0 (S t))) (seq 0 (S bound)).

(** A successful record with a duration that is neither [null] nor
    absent. *)
Definition successWithDuration (log : obj) : bool :=
  isSuccess log
  && match get log "duration" with
     | JUndefined | JNull => false
     | _ => true
     end.

(** A duration that counts: one that is truthy. Besides [null] and a
    missing duration this leaves out [0], [NaN] and the empty string. *)
Definition counts (log : obj) : bool :=
  match get log "duration" with
  | JUndefined | JNull => false
  | JBool b => b
  | JNum x => negb (PrimFloat.eqb x zero) && PrimFloat.eqb x x
  | JStr s => negb (String.eqb s "")
  | JErr _ => true
  end.

Section Average.

Variable StringToNumber : string -> float.

(** The durations the average runs over, as numbers, oldest first. *)
Definition countedDurations (logs : list obj) : list float :=
  List.map (fun log => toNumber StringToNumber (get log "duration"))
    (List.filter (fun log => isSuccess log && counts log) logs).

End Average.

(** The mean of [n] numbers in double precision: the sum, from 0 on and
    in the order of the list, of the [n]-th part of each. *)
Definition meanOfNumbers (xs : list float) : float :=
  fold_left (fun sum x => PrimFloat.add sum (PrimFloat.div x (ofNat (List.length xs))))
    xs zero.

End StatsSpec.

(** ** Words of the specification on strings and sequences *)

Module Words.

(** [k] slashes in a row. *)
Fixpoint slashes (k : nat) : string :=
  match k with
  | O => EmptyString
  | S k' => String "/" (slashes k')
  end.

Fixpoint lastChar (s : string) : option ascii :=
  match s with
  | EmptyString => None
  | String c EmptyString => Some c
  | String _ s' => lastChar s'
  end.

(** The last [n] elements of a sequence, in their order: the most recent
    [n] when the sequence grows at its end. *)
Definition lastN {A : Type} (n : nat) (l : list A) : list A :=
  drop (List.length l - n) l.

End Words.

(** ** The dashboard accessors and endpoints (logger.js, server.js) *)

Module Dashboard.
Import Js Logger.





Definition hexDigitOf (c : ascii) : option Z :=
  let n := nat_of_ascii c in
  if ((48 <=? n) && (n <=? 57))%nat then Some (Z.of_nat (n - 48))
  else if ((65 <=? n) && (n <=? 70))%nat then Some (Z.of_nat (n - 55))
  else if ((97 <=? n) && (n <=? 102))%nat then Some (Z.of_nat (n - 87))
  else None.

Fixpoint readHex (acc : option Z) (s : string) : option Z :=
  match s with
  | EmptyString => acc
  | String c s' =>
      match hexDigitOf c with
      | Some d => readHex (Some (16 * default 0%Z acc + d)%Z) s'
      | None => acc
      end
  end.

(** [parseInt(s)] without a radix: decimal, or hexadecimal after [0x]. *)
Definition parseInt (s : string) : ParsedInt :=
  let t := trimStart s in
  let '(negative, body) :=
    match t with
    | String "-" r => (true, r)
    | String "+" r => (false, r)
    | _ => (false, t)
    end in
  let digits :=
    match body with
    | String "0" (String "x" r) => readHex None r
    | String "0" (String "X" r) => readHex None r
    | _ => readDigits None body
    end in
  match digits with
  | None => PNaN
  | Some z => signedNumber negative z
  end.

(** [parseInt(_req.query.limit) || 10]; the query value is given as the
    string it converts to, [None] when the parameter is absent. *)
Definition queryLimit (limit : option string) : ParsedInt :=
  match limit with
  | None => PInt 10
  | Some s =>
      match parseInt s with
      | PNaN => PInt 10
      | PInt z => if (z =? 0)%Z then PInt 10 else PInt z
      | PInfinity b => PInfinity b
      end
  end.


Section Endpoints.

Variable StringToNumber : string -> float.


End Endpoints.

End Dashboard.

(** ** Progress lines of the encoder (server.js, [runFfmpeg]) *)

Module Progress.
Import Js.

Definition isDigit (c : ascii) : bool :=
  let n := nat_of_ascii c in ((48 <=? n) && (n <=? 57))%nat.

Definition isChar (d : ascii) (c : ascii) : bool := Ascii.eqb c d.

(** The shape [\d{2}:\d{2}:\d{2}\.\d{2}], one test per code unit. *)
Definition stampShape : list (ascii -> bool) :=
  [ isDigit; isDigit; isChar ":"; isDigit; isDigit; isChar ":";
    isDigit; isDigit; isChar "."; isDigit; isDigit ].

(** The code units of [s] that fit [shape] from its start. *)
Fixpoint matchShape (shape : list (ascii -> bool)) (s : string) : option string :=
  match shape with
  | [] => Some EmptyString
  | p :: ps =>
      match s with
      | EmptyString => None
      | String c s' =>
          if p c
          then match matchShape ps s' with
               | Some m => Some (String c m)
               | None => None
               end
          else None
      end
  end.

Fixpoint dropStr (n : nat) (s : string) : string :=
  match n, s with
  | S n', String _ s' => dropStr n' s'
  | _, _ => s
  end.

(** The match of [/time=(\d{2}:\d{2}:\d{2}\.\d{2})/] that starts here. *)
Definition stampHere (s : string) : option string :=
  if String.prefix "time=" s then matchShape stampShape (dropStr 5 s) else None.

(** [d.toString().match(/time=(..)/)]: the capture of the leftmost match. *)
Fixpoint progressMatch (chunk : string) : option string :=
  match stampHere chunk with
  | Some m => Some m
  | None =>
      match chunk with
      | EmptyString => None
      | String _ rest => progressMatch rest
      end
  end.

(** The progress values handed to [logFFmpegProgress] during a run, in
    order: one for each chunk that holds a match. *)
Definition progressReports (r : Ffmpeg.Run) : list string :=
  omap progressMatch (Ffmpeg.chunks r).

End Progress.

(** ** The handler of the probing server (part_003, [app.post('/transcode')]) *)

Module ProbeHandler.
Import Js ProbeServer.

Record UploadedFile : Type := {
  path : string;
  mimetype : option string
}.

Record Request : Type := {
  file : option UploadedFile;
  body : gmap string string;
  userAgentHeader : option string
}.

Record Env : Type := {
  PINATA_JWT : option string;
  PINATA_GATEWAY : option string;
  config : Config;
  tmpdir : string
}.

(** Everything the handler meets outside during one request. *)
Record Outside : Type := {
  uuidOutput : string;
  uploadDate : string;
  probe : Ffmpeg.Child ProbeRun;
  ffmpeg : Ffmpeg.Child Ffmpeg.Run;
  ffmpegWrote : bool;
  upload : Server.UploadOutcome
}.

Record PinForm : Type := {
  formFile : string;
  formFilename : string;
  metaName : string;
  keyvalues : obj;
  cidVersion : Z;
  authorization : string
}.

Inductive Event : Type :=
| Probed (path : string)
| Spawned (args : list string)
| Posted (form : PinForm)
| Unlinked (path : string) (removed : bool).

Record World : Type := {
  disk : gmap string bool;
  trace : list Event
}.

Definition emit (e : Event) (w : World) : World :=
  {| disk := disk w; trace := trace w ++ [e] |}.

Definition setDisk (d : gmap string bool) (w : World) : World :=
  {| disk := d; trace := trace w |}.

Definition unlinkQuietly (p : string) (w : World) : World :=
  match Server.unlinkSync p (disk w) with
  | inl _ => emit (Unlinked p false) w
  | inr d => emit (Unlinked p true) (setDisk d w)
  end.

Record Response : Type := {
  status : Z;
  json : obj
}.

(** [(req.body?.creator ?? '').toString().trim()], cut to 64 code units,
    [anonymous] when nothing is left. *)
Definition creatorOf (req : Request) : string :=
  let rawCreator := trim (default "" (body req !! "creator")) in
  if (String.length rawCreator =? 0)%nat then "anonymous" else takeStr 64 rawCreator.

(** [(req.body?.thumbnailUrl ?? req.body?.thumbnail ?? '').toString().trim()],
    cut to 2048 code units. *)
Definition thumbnailUrlOf (req : Request) : string :=
  let rawThumb :=
    trim (match body req !! "thumbnailUrl" with
          | Some t => t
          | None => default "" (body req !! "thumbnail")
          end) in
  if String.eqb rawThumb "" then "" else takeStr 2048 rawThumb.

(** [(req.headers['user-agent'] || '').slice(0, 100)]. *)
Definition userAgentOf (req : Request) : string :=
  takeStr 100 (strOr (userAgentHeader req) "").

(** [/Mobi|Android|iPhone|iPad/i.test(userAgent)]. *)
Definition isMobile (userAgent : string) : bool :=
  let ua := toLowerCase userAgent in
  includes "mobi" ua || includes "android" ua || includes "iphone" ua || includes "ipad" ua.

Definition pinataMetadata (out : Outside) (req : Request) : string * obj :=
  let creator := creatorOf req in
  let thumbnailUrl := thumbnailUrlOf req in
  let userAgent := userAgentOf req in
  ("transcoded-" +:+ creator +:+ "-" +:+ uploadDate out +:+ ".mp4",
   Server.whenSet "thumbnailUrl" thumbnailUrl
     (list_to_map
        [ ("creator", JStr creator);
          ("fileType", JStr (strOr (file req ≫= mimetype) "video/mp4"));
          ("uploadDate", JStr (uploadDate out));
          ("isMobile", JStr (if isMobile userAgent then "true" else "false"));
          ("userAgent", JStr userAgent) ])).

(** The body of the [try] block: the identifier of the upload, or the
    message of the error that was thrown; or a child that fails to start,
    which no [catch] sees. *)
Definition attempt (env : Env) (out : Outside) (req : Request)
    (inputPath outName outputPath : string) (w : World)
  : World * Ffmpeg.Outcome (string + option string) :=
  let w1 := emit (Probed inputPath) w in
  match execProbe (probe out) with
  | Ffmpeg.Uncaught e => (w1, Ffmpeg.Uncaught e)
  | Ffmpeg.Settles (inr m) => (w1, Ffmpeg.Settles (inl m))
  | Ffmpeg.Settles (inl info) =>
      let w2 := emit (Spawned (transcodeArgs info (config env) inputPath outputPath)) w1 in
      match Ffmpeg.runFfmpeg (ffmpeg out) with
      | Ffmpeg.Uncaught e => (w2, Ffmpeg.Uncaught e)
      | Ffmpeg.Settles settled =>
          let w3 :=
            if ffmpegWrote out then setDisk (<[outputPath := true]> (disk w2)) w2 else w2 in
          match settled with
          | Ffmpeg.Rejected m => (w3, Ffmpeg.Settles (inl m))
          | Ffmpeg.Resolved =>
              let '(name, kv) := pinataMetadata out req in
              match PINATA_JWT env with
              | None => (w3, Ffmpeg.Settles (inl "PINATA_JWT not configured on server"))
              | Some jwt =>
                  if String.eqb jwt ""
                  then (w3, Ffmpeg.Settles (inl "PINATA_JWT not configured on server"))
                  else
                    let form :=
                      {| formFile := outputPath;
                         formFilename := outName;
                         metaName := name;
                         keyvalues := kv;
                         cidVersion := 1;
                         authorization := "Bearer " +:+ jwt |} in
                    let w4 := emit (Posted form) w3 in
                    match upload out with
                    | Server.UploadRejected m => (w4, Ffmpeg.Settles (inl m))
                    | Server.UploadResolved None =>
                        (w4, Ffmpeg.Settles
                               (inl "Cannot destructure property 'IpfsHash' of 'resp.data' as it is undefined."))
                    | Server.UploadResolved (Some cid) => (w4, Ffmpeg.Settles (inr cid))
                    end
              end
          end
      end
  end.

(** The calls the [try] block can make after it has started the probe:
    none, the encoder, or the encoder and then one upload, of the output
    file. *)
Definition stepsOf (env : Env) (i o : string) (steps : list Event) : Prop :=
  steps = []
  \/ (exists info, steps = [Spawned (transcodeArgs info (config env) i o)])
  \/ (exists info form,
        steps = [Spawned (transcodeArgs info (config env) i o); Posted form]
        /\ formFile form = o).

(** How a request ends: with a response, or with the process, when a
    child fails to start. *)
Inductive Result : Type :=
| Answered (r : Response)
| Crashed (error : string).

(** [app.post('/transcode', ...)] of the probing server. *)
Definition transcode (env : Env) (out : Outside) (req : Request) (w : World)
  : World * Result :=
  match file req with
  | None =>
      (w, Answered {| status := 400; json := {[ "error" := JStr Server.noFileMessage ]} |})
  | Some f =>
      let inputPath := path f in
      let outName := uuidOutput out +:+ ".mp4" in
      let outputPath := Server.pathJoin (tmpdir env) outName in
      match attempt env out req inputPath outName outputPath w with
      | (w1, Ffmpeg.Uncaught e) => (w1, Crashed e)
      | (w1, Ffmpeg.Settles result) =>
          let response :=
            match result with
            | inr cid =>
                {| status := 200;
                   json := list_to_map
                             [ ("cid", Server.optStr cid);
                               ("gatewayUrl",
                                JStr (ProbeServer.gatewayUrl (PINATA_GATEWAY env)
                                        (default "undefined" cid))) ] |}
            | inl message =>
                {| status := 500;
                   json := {[ "error" := JStr (strOr (Some message) "Transcode failed") ]} |}
            end in
          (unlinkQuietly outputPath (unlinkQuietly inputPath w1), Answered response)
      end
  end.

End ProbeHandler.

(** ** Sample inputs *)

Module FfmpegSample.

(** A run that fails with exit code 1 after 5000 code units of
    diagnostics. *)
Definition noise (n : nat) : string := string_of_list_ascii (repeat "x"%char n).

Definition failing : Ffmpeg.Run :=
  {| Ffmpeg.chunks := [noise 3000; noise 2000]; Ffmpeg.exitCode := Some 1%Z |}.

(** A run the kernel ended for lack of memory: exit code 137, reported by
    the shell that wraps the encoder, after 4500 code units of
    diagnostics in three chunks. *)
Definition outOfMemory : Ffmpeg.Run :=
  {| Ffmpeg.chunks := [noise 2000; noise 2000; noise 500];
     Ffmpeg.exitCode := Some 137%Z |}.

(** A run that a signal ended: the exit code is [null]. *)
Definition killed : Ffmpeg.Run :=
  {| Ffmpeg.chunks := ["Exiting normally, received signal 15."];
     Ffmpeg.exitCode := None |}.

End FfmpegSample.

Module ProbeSample.
Import Js ProbeServer.

(** [FFMPEG_MAX_HEIGHT=1080], everything else left to its default. *)
Definition cap1080 : Config :=
  {| FFMPEG_THREADS := None; X264_PRESET := None; X264_CRF := None;
     AAC_BITRATE := None; FFMPEG_MAX_HEIGHT := Some "1080" |}.

(** A profile that is already H.264/AAC, 1080 lines high. *)
Definition h264aac1080 : Info :=
  {| vcodec := JStr "h264"; acodec := JStr "aac";
     width := JNum 1920%float; height := JNum 1080%float |}.

(** The output of [ffprobe] on a file with one VP9 video stream and no
    audio stream. *)
Definition vp9Only : ProbeRun :=
  {| probeCode := Some 0%Z; probeErr := "";
     probeOut :=
       Parsed (Some [ list_to_map [ ("codec_type", JStr "video");
                                    ("codec_name", JStr "vp9");
                                    ("width", JNum 1280%float);
                                    ("height", JNum 720%float) ] ]) |}.

End ProbeSample.

Module LoggerSample.
Import Js Logger.

(** The first scenario of test-logs.js: a start record that names no
    platform, device, browser or voting power, then its completion. *)
Definition aliceStart : StartInfo :=
  {| s_id := JStr "test001";
     s_user := JStr "alice_skater";
     s_filename := JStr "kickflip_360.mov";
     s_fileSize := JNum 25123456%float;
     s_clientIP := JStr "192.168.1.100";
     s_userAgent := Some "Test-Agent/1.0";
     s_origin := JStr "http://test.skatehive.app";
     s_platform := JUndefined;
     s_deviceInfo := JUndefined;
     s_browserInfo := JUndefined;
     s_userHP := JUndefined;
     s_correlationId := JUndefined;
     s_viewport := JUndefined;
     s_connectionType := JUndefined |}.

Definition aliceComplete : CompleteInfo :=
  {| c_id := JStr "test001";
     c_user := JStr "alice_skater";
     c_filename := JStr "kickflip_360.mov";
     c_cid := JStr "bafybeiabc123test";
     c_gatewayUrl := JStr "https://gateway.pinata.cloud/ipfs/bafy...";
     c_duration := JNum 3200%float;
     c_clientIP := JStr "192.168.1.100" |}.

Definition aliceError : ErrorInfo :=
  {| e_id := JStr "test001";
     e_user := JStr "alice_skater";
     e_filename := JStr "kickflip_360.mov";
     e_error := JStr "FFmpeg encoding failed";
     e_duration := JNum 900%float;
     e_clientIP := JStr "192.168.1.100" |}.

Definition started : TranscodeLogger :=
  logTranscodeStart 1700000000000%float "2023-11-14T22:13:20.000Z" aliceStart
    (createDefault NoFile).

Definition completed : TranscodeLogger :=
  logTranscodeComplete "2023-11-14T22:13:23.200Z" aliceComplete started.

(** A recorder that was handed [s] completions and then [f] failures. *)
Fixpoint completions (n : nat) (L : TranscodeLogger) : TranscodeLogger :=
  match n with
  | O => L
  | S n' => completions n' (logTranscodeComplete "2023-11-14T22:13:23.200Z" aliceComplete L)
  end.

Fixpoint failures (n : nat) (L : TranscodeLogger) : TranscodeLogger :=
  match n with
  | O => L
  | S n' => failures n' (logTranscodeError "2023-11-14T22:13:21.900Z" aliceError L)
  end.

Definition recorderOf (s f : nat) : TranscodeLogger :=
  failures f (completions s (createDefault NoFile)).

(** A completion like [aliceComplete] that took [duration]. *)
Definition completionIn (duration : JsVal) : CompleteInfo :=
  {| c_id := JStr "test001";
     c_user := JStr "alice_skater";
     c_filename := JStr "kickflip_360.mov";
     c_cid := JStr "bafybeiabc123test";
     c_gatewayUrl := JStr "https://gateway.pinata.cloud/ipfs/bafy...";
     c_duration := duration;
     c_clientIP := JStr "192.168.1.100" |}.

(** A recorder that holds a start, completions that took 1000 ms, 0 ms,
    2001 ms and an unknown time, and a failure that took 900 ms. *)
Definition mixed : TranscodeLogger :=
  logTranscodeError "2023-11-14T22:13:29.000Z" aliceError
    (logTranscodeComplete "2023-11-14T22:13:28.000Z" (completionIn JNull)
       (logTranscodeComplete "2023-11-14T22:13:27.000Z" (completionIn (JNum 2001%float))
          (logTranscodeComplete "2023-11-14T22:13:26.000Z" (completionIn (JNum 0%float))
             (logTranscodeComplete "2023-11-14T22:13:25.000Z" (completionIn (JNum 1000%float))
                started)))).

(** The record the start call leaves in the recorder. *)
Definition startRecord : obj :=
  enrich "2023-11-14T22:13:20.000Z" (startEntry 1700000000000%float aliceStart).

End LoggerSample.

Module ServerSample.
Import Js Logger Server.

Definition env : Env :=
  {| PINATA_JWT := Some "eyJhbGciOi";
     PINATA_GATEWAY := None;
     X264_PRESET := None;
     X264_CRF := None;
     AAC_BITRATE := None;
     tmpdir := "/tmp" |}.

(** A request that carries text fields but no [video] part. *)
Definition withoutFile : Request :=
  {| ip := Some "203.0.113.7";
     remoteAddress := None;
     userAgentHeader := Some "Mozilla/5.0 (iPhone; CPU iPhone OS 17_0 like Mac OS X)";
     originHeader := Some "https://skatehive.app";
     refererHeader := None;
     file := None;
     body := {[ "creator" := "alice" ]} |}.

Definition upload1 : UploadedFile :=
  {| originalname := "kickflip.mov";
     size := 1048576%float;
     path := "/tmp/1700000000000-kickflip.mov" |}.

Definition withFile : Request :=
  {| ip := Some "203.0.113.7";
     remoteAddress := None;
     userAgentHeader := Some "Mozilla/5.0 (iPhone; CPU iPhone OS 17_0 like Mac OS X)";
     originHeader := Some "https://skatehive.app";
     refererHeader := None;
     file := Some upload1;
     body := {[ "creator" := "alice"; "userHP" := "120" ]} |}.

Definition outside : Outside :=
  {| uuidRequest := "3f2a9c1e-7b64-4c1d-9a53-0e5f8d2b6a17";
     startTime := 1700000000000%float |}.

(** A recorder with nothing loaded and a temporary directory that holds
    the file multer wrote for the request. *)
Definition world0 : World :=
  {| logger := createDefault NoFile;
     disk := {[ "/tmp/1700000000000-kickflip.mov" := true ]};
     trace := [] |}.

End ServerSample.

Module RecorderSample.
Import Js Logger.

(** A second start under the id of [LoggerSample.aliceStart], sent from
    another platform. *)
Definition secondStart : StartInfo :=
  {| s_id := JStr "test001";
     s_user := JStr "bob_tricks";
     s_filename := JStr "ollie_attempt.mp4";
     s_fileSize := JNum 15678900%float;
     s_clientIP := JStr "192.168.1.101";
     s_userAgent := Some "Test-Agent/1.0";
     s_origin := JStr "http://test.skatehive.app";
     s_platform := JStr "android";
     s_deviceInfo := JStr "mobile/android/chrome";
     s_browserInfo := JStr "chrome";
     s_userHP := JStr "250";
     s_correlationId := JUndefined;
     s_viewport := JUndefined;
     s_connectionType := JUndefined |}.

(** A start and a completion that carry no id. *)
Definition namelessStart : StartInfo :=
  {| s_id := JUndefined;
     s_user := JStr "charlie_grinds";
     s_filename := JStr "rail_grind.avi";
     s_fileSize := JNum 45678123%float;
     s_clientIP := JStr "192.168.1.102";
     s_userAgent := Some "Test-Agent/1.0";
     s_origin := JStr "http://test.skatehive.app";
     s_platform := JStr "web";
     s_deviceInfo := JStr "desktop/linux/firefox";
     s_browserInfo := JStr "firefox";
     s_userHP := JStr "10";
     s_correlationId := JUndefined;
     s_viewport := JUndefined;
     s_connectionType := JUndefined |}.

Definition namelessComplete : CompleteInfo :=
  {| c_id := JUndefined;
     c_user := JStr "charlie_grinds";
     c_filename := JStr "rail_grind.avi";
     c_cid := JStr "bafybeiabc123test";
     c_gatewayUrl := JStr "https://gateway.pinata.cloud/ipfs/bafy...";
     c_duration := JNum 4100%float;
     c_clientIP := JStr "192.168.1.102" |}.

(** A recorder created without a bound. *)
Definition unbounded : TranscodeLogger := create "logs/transcode.log" 0 NoFile.

(** A log file whose second line is cut short. *)
Definition corruptFile : FileRead :=
  Lines [ Some LoggerSample.startRecord; None; Some LoggerSample.startRecord ].

End RecorderSample.

Module ProbeHandlerSample.
Import Js ProbeServer ProbeHandler.

Definition env : Env :=
  {| PINATA_JWT := Some "eyJhbGciOi";
     PINATA_GATEWAY := Some "https://ipfs.skatehive.app/ipfs/";
     config := ProbeSample.cap1080;
     tmpdir := "/tmp" |}.

(** The same environment without a token. *)
Definition noToken : Env :=
  {| PINATA_JWT := None;
     PINATA_GATEWAY := Some "https://ipfs.skatehive.app/ipfs/";
     config := ProbeSample.cap1080;
     tmpdir := "/tmp" |}.

Definition request : Request :=
  {| file := Some {| path := "/tmp/1700000000000-kickflip.mov";
                     mimetype := Some "video/quicktime" |};
     body := {[ "creator" := "  alice  " ]};
     userAgentHeader := Some "Mozilla/5.0 (Linux; Android 14) Mobile Safari/537.36" |}.

(** [ffprobe] exits with code 1 on a file it cannot read. *)
Definition probeFails : Outside :=
  {| uuidOutput := "c0ffee00-1234-4abc-8def-001122334455";
     uploadDate := "2023-11-14T22:13:22.400Z";
     probe := Ffmpeg.Closes
                {| probeCode := Some 1%Z;
                   probeErr := "moov atom not found";
                   probeOut := Unparsable "Unexpected end of JSON input" |};
     ffmpeg := Ffmpeg.Closes {| Ffmpeg.chunks := []; Ffmpeg.exitCode := Some 0%Z |};
     ffmpegWrote := false;
     upload := Server.UploadResolved (Some (Some "bafybeigdyr")) |}.

(** Every stage succeeds on a VP9 file. *)
Definition allGoesWell : Outside :=
  {| uuidOutput := "c0ffee00-1234-4abc-8def-001122334455";
     uploadDate := "2023-11-14T22:13:22.400Z";
     probe := Ffmpeg.Closes ProbeSample.vp9Only;
     ffmpeg := Ffmpeg.Closes
                 {| Ffmpeg.chunks := ["frame=   30 fps=0.0 time=00:00:01.00"];
                    Ffmpeg.exitCode := Some 0%Z |};
     ffmpegWrote := true;
     upload := Server.UploadResolved (Some (Some "bafybeigdyr")) |}.

(** The probe succeeds, and there is no [ffmpeg] on the machine. *)
Definition noEncoder : Outside :=
  {| uuidOutput := "c0ffee00-1234-4abc-8def-001122334455";
     uploadDate := "2023-11-14T22:13:22.400Z";
     probe := Ffmpeg.Closes ProbeSample.vp9Only;
     ffmpeg := Ffmpeg.FailsToStart "spawn ffmpeg ENOENT";
     ffmpegWrote := false;
     upload := Server.UploadResolved (Some (Some "bafybeigdyr")) |}.

(** The pinning service answers with a body that holds no [IpfsHash]. *)
Definition noIdentifier : Outside :=
  {| uuidOutput := "c0ffee00-1234-4abc-8def-001122334455";
     uploadDate := "2023-11-14T22:13:22.400Z";
     probe := Ffmpeg.Closes ProbeSample.vp9Only;
     ffmpeg := Ffmpeg.Closes
                 {| Ffmpeg.chunks := ["frame=   30 fps=0.0 time=00:00:01.00"];
                    Ffmpeg.exitCode := Some 0%Z |};
     ffmpegWrote := true;
     upload := Server.UploadResolved (Some None) |}.

Definition world0 : World :=
  {| disk := {[ "/tmp/1700000000000-kickflip.mov" := true ]}; trace := [] |}.

(** A temporary directory that also holds the upload of another request. *)
Definition sharedTmp : World :=
  {| disk := {[ "/tmp/1700000000000-kickflip.mov" := true;
                "/tmp/1700000000777-ollie.mp4" := true ]};
     trace := [] |}.

End ProbeHandlerSample.

(** * Properties *)

Section StatsFacts.
Import Js Logger StatsSpec.

Variable StringToNumber : string -> float.

Lemma rateTable_100 : rateTable 100 = true.
Proof. vm_compute. reflexivity. Qed.

Lemma rateTable_sound (bound : nat) :
  rateTable bound = true ->
  forall s t, (s <= t)%nat -> (t <= bound)%nat -> rateAgrees t s = true.
Proof.
  unfold rateTable. intros H s t Hs Ht.
  rewrite forallb_forall in H.
  assert (Hrow : forallb (rateAgrees t) (seq 0 (S t)) = true).
  { apply H. apply in_seq. lia. }
  rewrite forallb_forall in Hrow. apply Hrow. apply in_seq. lia.
Qed.

Lemma rateOf_bounded (s t : nat) :
  (s <= t)%nat -> (t <= 100)%nat ->
  intValue (rateOf s t) = Some (expectedRate s t).
Proof.
  intros Hs Ht.
  pose proof (rateTable_sound 100 rateTable_100 s t Hs Ht) as Hin.
  unfold rateAgrees in Hin.
  destruct (intValue (rateOf s t)) as [z|]; [|discriminate].
  apply Z.eqb_eq in Hin. now subst.
Qed.

Lemma successRate_rateOf (L : TranscodeLogger) :
  successRate (getStats StringToNumber L)
  = rateOf (successful (getStats StringToNumber L)) (total (getStats StringToNumber L)).
Proof. reflexivity. Qed.

Lemma filter_length_le {A} (p : A -> bool) (l : list A) :
  (List.length (List.filter p l) <= List.length l)%nat.
Proof.
  induction l as [|x l IH]; simpl; [lia|]. destruct (p x); simpl; lia.
Qed.

Lemma filter_filter_imp {A} (p q : A -> bool) (l : list A) :
  (forall x, p x = true -> q x = true) ->
  List.filter p (List.filter q l) = List.filter p l.
Proof.
  intros Hpq. induction l as [|x l IH]; simpl; [reflexivity|].
  destruct (q x) eqn:Hq; simpl.
  - destruct (p x); [f_equal|]; exact IH.
  - destruct (p x) eqn:Hp; [|exact IH].
    apply Hpq in Hp. congruence.
Qed.

Lemma timed_counts (log : obj) : timed log = isSuccess log && counts log.
Proof.
  unfold timed, counts, truthy. rewrite andb_comm.
  destruct (get log "duration"); reflexivity.
Qed.

Lemma fold_left_map {A B C : Type} (f : C -> B -> C) (g : A -> B) (l : list A) (c : C) :
  fold_left f (List.map g l) c = fold_left (fun acc a => f acc (g a)) l c.
Proof. revert c. induction l as [|a l IH]; intros c; simpl; [reflexivity | apply IH]. Qed.

Lemma avgDuration_mean (L : TranscodeLogger) :
  avgDuration (getStats StringToNumber L)
  = Math_round (meanOfNumbers (countedDurations StringToNumber (logs L))).
Proof.
  unfold getStats, meanOfNumbers, countedDurations, meanOf. cbn [avgDuration].
  rewrite (List.filter_ext timed (fun log => isSuccess log && counts log) timed_counts).
  rewrite fold_left_map, List.length_map. reflexivity.
Qed.

Lemma timed_successWithDuration (log : obj) :
  timed log = true -> successWithDuration log = true.
Proof.
  unfold timed, successWithDuration.
  destruct (get log "duration"); simpl; try discriminate;
    destruct (isSuccess log); simpl; intros; try discriminate;
    try reflexivity; rewrite ?andb_false_r in *; try discriminate.
Qed.

End StatsFacts.

(** ** Properties of the aggregate statistics *)

(** C7, as stated, fails: with 23 successful records out of 40 retained
    ones the source computes [(23 / 40) * 100] in binary64, which is
    [57.49999999999999], and reports 57, while [100 * 23 / 40 = 57.5]
    rounds to 58. *)
Lemma getStats_rate_not_exact_rounding :
  let st := Logger.getStats (fun _ => nan) (LoggerSample.recorderOf 23 17) in
  Logger.total st = 40%nat /\ Logger.successful st = 23%nat /\
  Js.intValue (Logger.successRate st) = Some 57%Z /\
  StatsSpec.specSuccessRate 23 40 = 58%Z /\
  Js.intValue (Logger.successRate st)
  <> Some (StatsSpec.specSuccessRate (Logger.successful st) (Logger.total st)).
Proof.
  cbv zeta. repeat split; try (vm_compute; reflexivity).
  vm_compute. discriminate.
Qed.

(** The average is not over all successes of non-null duration either: a
    success that took 0 ms is left out, so successes of 0 ms and of 100 ms
    average to 100 ms, not to 50. *)
Example average_leaves_out_zero_durations :
  let L := Logger.logTranscodeComplete "2023-11-14T22:13:26.000Z"
             (LoggerSample.completionIn (Js.JNum 100%float))
             (Logger.logTranscodeComplete "2023-11-14T22:13:25.000Z"
                (LoggerSample.completionIn (Js.JNum 0%float))
                (Logger.createDefault Logger.NoFile)) in
  List.length (List.filter StatsSpec.successWithDuration (Logger.logs L)) = 2%nat
  /\ Js.intValue (Logger.avgDuration (Logger.getStats (fun _ => nan) L)) = Some 100%Z.
Proof. cbv zeta. split; vm_compute; reflexivity. Qed.

(** C7, amended: for a recorder of at most 100 records (the default
    [maxLogs]) the success rate is 0 when nothing is retained, is 57 on
    23 of 40 and on 46 of 80, and is [100 * successful / total] rounded to
    the nearest integer everywhere else; the counts are those of all
    retained records and of the ones marked successful. The average
    duration is [Math.round] of the mean, in double precision, of the
    durations of the successful records whose duration is truthy (a
    duration of 0 is left out like a null one), each duration being
    divided by their number before it is added; it is 0 when there is no
    such record, and two recorders with the same successful records of
    non-null duration report the same average. *)
Theorem getStats_rate_and_average
    (StringToNumber : string -> float) (L L' : Logger.TranscodeLogger) :
  (List.length (Logger.logs L) <= 100)%nat ->
  List.filter StatsSpec.successWithDuration (Logger.logs L')
  = List.filter StatsSpec.successWithDuration (Logger.logs L) ->
  let st := Logger.getStats StringToNumber L in
  Logger.total st = List.length (Logger.logs L) /\
  Logger.successful st = List.length (List.filter Logger.isSuccess (Logger.logs L)) /\
  (Logger.total st = 0%nat -> Js.intValue (Logger.successRate st) = Some 0%Z) /\
  (StatsSpec.belowHalf (Logger.successful st) (Logger.total st) = true ->
   Js.intValue (Logger.successRate st) = Some 57%Z) /\
  ((0 < Logger.total st)%nat ->
   StatsSpec.belowHalf (Logger.successful st) (Logger.total st) = false ->
   Js.intValue (Logger.successRate st)
   = Some (StatsSpec.specSuccessRate (Logger.successful st) (Logger.total st))) /\
  Logger.avgDuration st
  = Js.Math_round
      (StatsSpec.meanOfNumbers (StatsSpec.countedDurations StringToNumber (Logger.logs L))) /\
  (StatsSpec.countedDurations StringToNumber (Logger.logs L) = [] ->
   Logger.avgDuration st = zero) /\
  Logger.avgDuration (Logger.getStats StringToNumber L') = Logger.avgDuration st.
Proof.
  intros Hlen Hsame st.
  assert (Hrate : Js.intValue (Logger.successRate st)
                  = Some (StatsSpec.expectedRate (Logger.successful st) (Logger.total st))).
  { subst st. rewrite successRate_rateOf. apply rateOf_bounded.
    - simpl. apply filter_length_le.
    - exact Hlen. }
  assert (Havg : Logger.avgDuration st
                 = Js.Math_round
                     (StatsSpec.meanOfNumbers
                        (StatsSpec.countedDurations StringToNumber (Logger.logs L)))).
  { subst st. apply avgDuration_mean. }
  split; [reflexivity|]. split; [reflexivity|].
  split; [|split; [|split; [|split; [|split]]]].
  - intros H0. rewrite Hrate. revert H0. generalize (Logger.successful st).
    intros s H0. rewrite H0. unfold StatsSpec.expectedRate, StatsSpec.belowHalf.
    simpl. rewrite !andb_false_r. reflexivity.
  - intros Hb. rewrite Hrate. unfold StatsSpec.expectedRate. now rewrite Hb.
  - intros _ Hb. rewrite Hrate. unfold StatsSpec.expectedRate. now rewrite Hb.
  - exact Havg.
  - intros Hnone. rewrite Havg, Hnone. reflexivity.
  - subst st. simpl.
    rewrite <- (filter_filter_imp Logger.timed StatsSpec.successWithDuration (Logger.logs L'))
      by apply timed_successWithDuration.
    rewrite <- (filter_filter_imp Logger.timed StatsSpec.successWithDuration (Logger.logs L))
      by apply timed_successWithDuration.
    now rewrite Hsame.
Qed.

Lemma getStats_rate_and_average_witness :
  (List.length (Logger.logs LoggerSample.mixed) <= 100)%nat /\
  Logger.total (Logger.getStats (fun _ => nan) LoggerSample.mixed) = 6%nat /\
  Logger.successful (Logger.getStats (fun _ => nan) LoggerSample.mixed) = 4%nat /\
  Js.intValue (Logger.successRate (Logger.getStats (fun _ => nan) LoggerSample.mixed))
  = Some 67%Z /\
  StatsSpec.countedDurations (fun _ => nan) (Logger.logs LoggerSample.mixed)
  = [1000%float; 2001%float] /\
  Js.intValue (Logger.avgDuration (Logger.getStats (fun _ => nan) LoggerSample.mixed))
  = Some 1501%Z.
Proof.
  assert (Hlen : (List.length (Logger.logs LoggerSample.mixed) <= 100)%nat)
    by (vm_compute; lia).
  pose proof (getStats_rate_and_average (fun _ => nan) LoggerSample.mixed
                LoggerSample.mixed Hlen eq_refl) as H.
  cbv zeta in H. destruct H as (Ht & Hs & _ & _ & Hr & Ha & _ & _).
  assert (Hd : StatsSpec.countedDurations (fun _ => nan) (Logger.logs LoggerSample.mixed)
               = [1000%float; 2001%float]) by (vm_compute; reflexivity).
  split; [exact Hlen|]. split; [rewrite Ht; vm_compute; reflexivity|].
  split; [rewrite Hs; vm_compute; reflexivity|].
  split; [|split; [exact Hd|]].
  - rewrite Hr; [vm_compute; reflexivity | vm_compute; lia | vm_compute; reflexivity].
  - rewrite Ha, Hd. vm_compute. reflexivity.
Defined.


(** ** Strings *)

Section StringFacts.
Import Js Words.

Lemma length_append (a b : string) :
  String.length (a +:+ b) = (String.length a + String.length b)%nat.
Proof.
  induction a as [|c a IH]; [reflexivity|].
  change (String c a +:+ b) with (String c (a +:+ b)). simpl. now rewrite IH.
Qed.

Lemma substring_whole (s : string) (m : nat) :
  (String.length s <= m)%nat -> substring 0 m s = s.
Proof.
  revert m. induction s as [|c s IH]; intros m Hm.
  - destruct m; reflexivity.
  - destruct m as [|m]; simpl in Hm; [lia|].
    simpl. f_equal. apply IH. lia.
Qed.

Lemma substring_suffix (k m : nat) (s : string) :
  (k <= String.length s)%nat -> (String.length s <= k + m)%nat ->
  exists pre, s = pre +:+ substring k m s /\ String.length pre = k.
Proof.
  revert s. induction k as [|k IH]; intros s Hk Hm.
  - exists EmptyString. split; [|reflexivity].
    change (EmptyString +:+ substring 0 m s) with (substring 0 m s).
    symmetry. apply substring_whole. lia.
  - destruct s as [|c s]; simpl in Hk; [lia|].
    destruct (IH s) as [pre [Hpre Hlen]]; [lia | simpl in Hm; lia |].
    exists (String c pre). split; [|simpl; now rewrite Hlen].
    change (String c pre +:+ substring (S k) m (String c s))
      with (String c (pre +:+ substring k m s)).
    now rewrite <- Hpre.
Qed.

Lemma sliceLast_suffix (n : nat) (s : string) :
  exists pre, s = pre +:+ sliceLast n s
              /\ String.length (sliceLast n s) = Nat.min n (String.length s).
Proof.
  unfold sliceLast.
  destruct (substring_suffix (String.length s - n) n s) as [pre [Hpre Hlen]]; [lia|lia|].
  exists pre. split; [exact Hpre|].
  apply (f_equal String.length) in Hpre. rewrite length_append in Hpre. lia.
Qed.

Lemma allSlashes_slashes (s : string) :
  allSlashes s = true -> exists k, s = slashes k.
Proof.
  induction s as [|c s IH]; simpl; intros H.
  - now exists 0%nat.
  - apply andb_true_iff in H as [Hc Hs]. apply Ascii.eqb_eq in Hc. subst c.
    destruct (IH Hs) as [k ->]. now exists (S k).
Qed.

Lemma allSlashes_of_slashes (k : nat) : allSlashes (slashes k) = true.
Proof. induction k as [|k IH]; [reflexivity|]. simpl. exact IH. Qed.

Lemma stripSlashes_spec (s : string) :
  exists k, s = stripSlashes s +:+ slashes k
            /\ lastChar (stripSlashes s) <> Some "/"%char.
Proof.
  induction s as [|c s IH].
  - exists 0%nat. split; [reflexivity|discriminate].
  - simpl. destruct (Ascii.eqb c "/" && allSlashes s) eqn:Hall.
    + apply andb_true_iff in Hall as [Hc Hs]. apply Ascii.eqb_eq in Hc. subst c.
      destruct (allSlashes_slashes s Hs) as [k ->].
      exists (S k). split; [reflexivity|discriminate].
    + destruct IH as [k [Hk Hlast]]. exists k. split.
      * change (String c (stripSlashes s) +:+ slashes k)
          with (String c (stripSlashes s +:+ slashes k)).
        now rewrite <- Hk.
      * simpl. destruct (stripSlashes s) as [|c' t] eqn:Hstrip; [|exact Hlast].
        intros Heq. injection Heq as ->.
        change (EmptyString +:+ slashes k) with (slashes k) in Hk.
        rewrite Hk, allSlashes_of_slashes in Hall. discriminate.
Qed.

End StringFacts.

(** ** The exit handler of the encoder *)


Section ExitFacts.
Import Js.

Lemma showInteger_safe (z : Z) :
  (Z.abs z < 2 ^ 53)%Z -> showInteger z = pretty z.
Proof.
  intros Hz. destruct z as [|p|p]; [reflexivity| |].
  - unfold showInteger, showPositive.
    destruct (Z.ltb_spec (Z.pos p) (2 ^ 53)) as [_|H]; [reflexivity|]. simpl in Hz. lia.
  - unfold showInteger, showPositive. change (- Z.neg p)%Z with (Z.pos p).
    destruct (Z.ltb_spec (Z.pos p) (2 ^ 53)) as [_|H]; [reflexivity|]. simpl in Hz. lia.
Qed.

End ExitFacts.

(** C4: a run that ends with exit code 0 resolves; a run that ends with
    any other exit code rejects with an error whose message is [ffmpeg
    exited with], the decimal digits of the exit code, a colon, and a
    tail of the accumulated standard error that is its last 4000 code
    units, all of it when it is shorter: the tail never exceeds 4000 code
    units. A run that a signal ended rejects in the same way, with [null]
    for the code. *)
Theorem runFfmpeg_settles (r : Ffmpeg.Run) :
  (Ffmpeg.exitCode r = Some 0%Z ->
   Ffmpeg.runFfmpeg (Ffmpeg.Closes r) = Ffmpeg.Settles Ffmpeg.Resolved) /\
  (forall code : Z,
     Ffmpeg.exitCode r = Some code -> code <> 0%Z -> (Z.abs code < 2 ^ 53)%Z ->
     exists pre tail,
       Ffmpeg.runFfmpeg (Ffmpeg.Closes r)
       = Ffmpeg.Settles
           (Ffmpeg.Rejected ("ffmpeg exited with " +:+ pretty code +:+ ": " +:+ tail))
       /\ Ffmpeg.stderrOf r = pre +:+ tail
       /\ String.length tail = Nat.min 4000 (String.length (Ffmpeg.stderrOf r))
       /\ (String.length tail <= 4000)%nat) /\
  (Ffmpeg.exitCode r = None ->
   exists pre tail,
     Ffmpeg.runFfmpeg (Ffmpeg.Closes r)
     = Ffmpeg.Settles (Ffmpeg.Rejected ("ffmpeg exited with null: " +:+ tail))
     /\ Ffmpeg.stderrOf r = pre +:+ tail
     /\ String.length tail = Nat.min 4000 (String.length (Ffmpeg.stderrOf r))
     /\ (String.length tail <= 4000)%nat).
Proof.
  destruct (sliceLast_suffix Ffmpeg.tailLimit (Ffmpeg.stderrOf r)) as [pre [Hpre Hlen]].
  assert (Hle : (String.length (Js.sliceLast Ffmpeg.tailLimit (Ffmpeg.stderrOf r)) <= 4000)%nat).
  { rewrite Hlen. unfold Ffmpeg.tailLimit. lia. }
  split; [|split].
  - intros H. unfold Ffmpeg.runFfmpeg, Ffmpeg.onClose. now rewrite H.
  - intros code Hcode Hnz Hsafe.
    exists pre, (Js.sliceLast Ffmpeg.tailLimit (Ffmpeg.stderrOf r)).
    split; [|split; [exact Hpre | split; [exact Hlen | exact Hle]]].
    unfold Ffmpeg.runFfmpeg, Ffmpeg.onClose, Ffmpeg.failureMessage. rewrite Hcode.
    destruct code as [|p|p]; [now elim Hnz| |];
      unfold Ffmpeg.showCode; rewrite (showInteger_safe _ Hsafe); reflexivity.
  - intros Hcode.
    exists pre, (Js.sliceLast Ffmpeg.tailLimit (Ffmpeg.stderrOf r)).
    split; [|split; [exact Hpre | split; [exact Hlen | exact Hle]]].
    unfold Ffmpeg.runFfmpeg, Ffmpeg.onClose, Ffmpeg.failureMessage. rewrite Hcode.
    reflexivity.
Qed.

Lemma runFfmpeg_settles_witness :
  String.length (Ffmpeg.stderrOf FfmpegSample.outOfMemory) = 4500%nat /\
  exists pre tail,
    Ffmpeg.runFfmpeg (Ffmpeg.Closes FfmpegSample.outOfMemory)
    = Ffmpeg.Settles (Ffmpeg.Rejected ("ffmpeg exited with 137: " +:+ tail))
    /\ Ffmpeg.stderrOf FfmpegSample.outOfMemory = pre +:+ tail
    /\ String.length pre = 500%nat
    /\ String.length tail = 4000%nat.
Proof.
  assert (Hlen : String.length (Ffmpeg.stderrOf FfmpegSample.outOfMemory) = 4500%nat)
    by (vm_compute; reflexivity).
  split; [exact Hlen|].
  destruct (proj1 (proj2 (runFfmpeg_settles FfmpegSample.outOfMemory)) 137%Z)
    as (pre & tail & Hrun & Hpre & Htail & _);
    [reflexivity | discriminate | reflexivity |].
  exists pre, tail. split; [exact Hrun|]. split; [exact Hpre|].
  rewrite Hlen in Htail. change (Nat.min 4000 4500) with 4000%nat in Htail.
  split; [|exact Htail].
  apply (f_equal String.length) in Hpre. rewrite length_append, Hlen, Htail in Hpre. lia.
Defined.

Example runFfmpeg_exit_codes :
  Ffmpeg.runFfmpeg (Ffmpeg.Closes {| Ffmpeg.chunks := ["a"; "b"]; Ffmpeg.exitCode := Some 1%Z |})
  = Ffmpeg.Settles (Ffmpeg.Rejected "ffmpeg exited with 1: ab")
  /\ Ffmpeg.runFfmpeg (Ffmpeg.Closes {| Ffmpeg.chunks := []; Ffmpeg.exitCode := Some 255%Z |})
     = Ffmpeg.Settles (Ffmpeg.Rejected "ffmpeg exited with 255: ")
  /\ Ffmpeg.runFfmpeg (Ffmpeg.Closes FfmpegSample.killed)
     = Ffmpeg.Settles
         (Ffmpeg.Rejected "ffmpeg exited with null: Exiting normally, received signal 15.")
  /\ Ffmpeg.runFfmpeg (Ffmpeg.FailsToStart "spawn ffmpeg ENOENT")
     = Ffmpeg.Uncaught "spawn ffmpeg ENOENT".
Proof. repeat split; reflexivity. Qed.

(** ** The gateway URL *)


Example gatewayUrl_trailing_slashes :
  Server.gatewayUrl
    {| Server.PINATA_JWT := Some "jwt";
       Server.PINATA_GATEWAY := Some "https://ipfs.skatehive.app/ipfs///";
       Server.X264_PRESET := None; Server.X264_CRF := None;
       Server.AAC_BITRATE := None; Server.tmpdir := "/tmp" |}
    (Some "bafybeigdyr")
  = "https://ipfs.skatehive.app/ipfs/bafybeigdyr".
Proof. reflexivity. Qed.


(** ** The remux decision *)

Section ProbeFacts.
Import Js ProbeServer.

Lemma strictEq_JStr (v : JsVal) (s : string) :
  strictEq v (JStr s) = true <-> v = JStr s.
Proof.
  destruct v; simpl; split; intros H; try discriminate.
  - apply String.eqb_eq in H. now subst.
  - injection H as ->. apply String.eqb_refl.
Qed.

Lemma alreadyCompatible_iff (info : Info) :
  alreadyCompatible info = true
  <-> vcodec info = JStr "h264" /\ acodec info = JStr "aac".
Proof.
  unfold alreadyCompatible. rewrite andb_true_iff, !strictEq_JStr. reflexivity.
Qed.

Lemma encodeArgs_not_remuxArgs (c : Config) (i o : string) :
  encodeArgs c i o <> remuxArgs i o.
Proof.
  unfold encodeArgs, remuxArgs. destruct (scaleHeight c); simpl; discriminate.
Qed.

Lemma scaleHeight_iff (c : Config) (h : Z) :
  scaleHeight c = Some h <-> maxH c = Some (PInt h) /\ h <> 0%Z.
Proof.
  unfold scaleHeight. destruct (maxH c) as [[| b | z]|]; simpl.
  - split; [discriminate | intros [H _]; discriminate].
  - split; [discriminate | intros [H _]; discriminate].
  - destruct (Z.eqb_spec z 0) as [-> | Hz]; simpl.
    + split; [discriminate | intros [H Hh]; injection H as <-; now elim Hh].
    + split; [intros H; injection H as <-; now split | intros [H _]; now injection H as <-].
  - split; [discriminate | intros [H _]; discriminate].
Qed.

End ProbeFacts.

(** C1: the arguments handed to the encoder are the stream-copy ones,
    [-c copy -movflags +faststart] between the input and the output, if
    and only if the probed video codec is exactly h264 and the probed audio
    codec is exactly aac; in every other case, a missing stream included,
    they are the ones of a full encode to libx264 and aac, with or without
    a scale filter; and two profiles with the same codecs get the same
    decision whatever their heights and whatever the configuration. *)
Theorem remux_iff_h264_aac
    (info : ProbeServer.Info) (c : ProbeServer.Config) (i o : string) :
  let copy := ["-y"; "-i"; i; "-c"; "copy"; "-movflags"; "+faststart"; o] in
  let encode (filter : list string) :=
    ["-y"; "-i"; i] ++ filter
    ++ ["-c:v"; "libx264";
        "-preset"; Js.strOr (ProbeServer.X264_PRESET c) "veryfast";
        "-crf"; Js.strOr (ProbeServer.X264_CRF c) "22";
        "-threads"; Js.strOr (ProbeServer.FFMPEG_THREADS c) "1";
        "-c:a"; "aac";
        "-b:a"; Js.strOr (ProbeServer.AAC_BITRATE c) "128k";
        "-movflags"; "+faststart"; o] in
  (ProbeServer.transcodeArgs info c i o = copy
   <-> ProbeServer.vcodec info = Js.JStr "h264"
       /\ ProbeServer.acodec info = Js.JStr "aac") /\
  (~ (ProbeServer.vcodec info = Js.JStr "h264"
      /\ ProbeServer.acodec info = Js.JStr "aac") ->
   exists filter,
     ProbeServer.transcodeArgs info c i o = encode filter
     /\ (filter = [] \/ exists h, filter = ["-vf"; "scale=-2:" +:+ h])) /\
  (ProbeServer.vcodec info = Js.JNull \/ ProbeServer.acodec info = Js.JNull ->
   ProbeServer.transcodeArgs info c i o <> copy) /\
  (forall (info' : ProbeServer.Info) (c' : ProbeServer.Config),
     ProbeServer.vcodec info' = ProbeServer.vcodec info ->
     ProbeServer.acodec info' = ProbeServer.acodec info ->
     (ProbeServer.transcodeArgs info' c' i o = copy
      <-> ProbeServer.transcodeArgs info c i o = copy)).
Proof.
  intros copy encode.
  assert (Hremux : forall inf cf,
            ProbeServer.transcodeArgs inf cf i o = copy
            <-> ProbeServer.vcodec inf = Js.JStr "h264"
                /\ ProbeServer.acodec inf = Js.JStr "aac").
  { intros inf cf. rewrite <- alreadyCompatible_iff. unfold ProbeServer.transcodeArgs.
    destruct (ProbeServer.alreadyCompatible inf); split; intros H; try reflexivity.
    - now apply encodeArgs_not_remuxArgs in H.
    - discriminate. }
  split; [apply Hremux|]. split; [|split].
  - intros Hnot. unfold ProbeServer.transcodeArgs.
    destruct (ProbeServer.alreadyCompatible info) eqn:Hc.
    + apply alreadyCompatible_iff in Hc. now elim Hnot.
    + unfold ProbeServer.encodeArgs.
      destruct (ProbeServer.scaleHeight c) as [h|].
      * exists ["-vf"; "scale=-2:" +:+ Js.showInteger h]. split; [reflexivity|].
        right. now exists (Js.showInteger h).
      * exists []. split; [reflexivity | now left].
  - intros Hnull Hcopy. apply Hremux in Hcopy. destruct Hcopy as [Hv Ha].
    destruct Hnull as [Hn | Hn]; congruence.
  - intros info' c' Hv Ha. rewrite !Hremux, Hv, Ha. reflexivity.
Qed.

Example remux_ignores_height_cap :
  ProbeServer.transcodeArgs ProbeSample.h264aac1080
    {| ProbeServer.FFMPEG_THREADS := None; ProbeServer.X264_PRESET := None;
       ProbeServer.X264_CRF := None; ProbeServer.AAC_BITRATE := None;
       ProbeServer.FFMPEG_MAX_HEIGHT := Some "720" |} "in.mov" "out.mp4"
  = ["-y"; "-i"; "in.mov"; "-c"; "copy"; "-movflags"; "+faststart"; "out.mp4"].
Proof. reflexivity. Qed.

Example missing_audio_is_encoded :
  match ProbeServer.probeOnClose ProbeSample.vp9Only with
  | inl info =>
      ProbeServer.acodec info = Js.JNull
      /\ ProbeServer.transcodeArgs info ProbeSample.cap1080 "in.webm" "out.mp4"
         = ["-y"; "-i"; "in.webm"; "-vf"; "scale=-2:1080";
            "-c:v"; "libx264"; "-preset"; "veryfast"; "-crf"; "22";
            "-threads"; "1"; "-c:a"; "aac"; "-b:a"; "128k";
            "-movflags"; "+faststart"; "out.mp4"]
  | inr _ => False
  end.
Proof. split; reflexivity. Qed.

(** ** The bounded sequence of records *)

Section LoggerFacts.
Import Js Logger Words.

Lemma sliceFrom_lastN {A : Type} (m : Z) (l : list A) :
  (0 < m)%Z -> sliceFrom (- m) l = lastN (Z.to_nat m) l.
Proof.
  intros Hm. unfold sliceFrom, lastN.
  destruct (Z.ltb_spec (- m) 0) as [_ | H]; [|lia].
  f_equal. lia.
Qed.

Lemma length_lastN {A : Type} (n : nat) (l : list A) :
  List.length (lastN n l) = Nat.min n (List.length l).
Proof. unfold lastN. rewrite length_drop. lia. Qed.

Lemma lastN_all {A : Type} (n : nat) (l : list A) :
  (List.length l <= n)%nat -> lastN n l = l.
Proof.
  intros H. unfold lastN. replace (List.length l - n)%nat with 0%nat by lia.
  reflexivity.
Qed.

Lemma lastN_app_lastN {A : Type} (n : nat) (l l' : list A) :
  lastN n (lastN n l ++ l') = lastN n (l ++ l').
Proof.
  unfold lastN.
  rewrite !length_app, length_drop, !drop_app, drop_drop, length_drop.
  f_equal; f_equal; lia.
Qed.

Lemma lastN_suffix {A : Type} (n : nat) (l : list A) (x : A) :
  (0 < n)%nat -> exists k, lastN n (l ++ [x]) = drop k l ++ [x].
Proof.
  intros Hn. unfold lastN. rewrite length_app. simpl.
  exists (List.length l + 1 - n)%nat.
  rewrite drop_app_le by lia. reflexivity.
Qed.

Lemma maxLogs_addLog (ts : string) (e : obj) (L : TranscodeLogger) :
  maxLogs (addLog ts e L) = maxLogs L.
Proof. reflexivity. Qed.

Lemma logs_addLog (ts : string) (e : obj) (L : TranscodeLogger) :
  (0 < maxLogs L)%Z ->
  logs (addLog ts e L) = lastN (Z.to_nat (maxLogs L)) (logs L ++ [enrich ts e]).
Proof. intros Hm. unfold addLog, saveLogs. simpl. now apply sliceFrom_lastN. Qed.

Lemma maxLogs_appendAll (es : list (string * obj)) (L : TranscodeLogger) :
  maxLogs (appendAll es L) = maxLogs L.
Proof.
  revert L. induction es as [|e es IH]; intros L; [reflexivity|].
  simpl. now rewrite IH.
Qed.

Lemma logs_appendAll (es : list (string * obj)) (L : TranscodeLogger) :
  (0 < maxLogs L)%Z ->
  (List.length (logs L) <= Z.to_nat (maxLogs L))%nat ->
  logs (appendAll es L)
  = lastN (Z.to_nat (maxLogs L))
      (logs L ++ List.map (fun e => enrich (fst e) (snd e)) es).
Proof.
  revert L. induction es as [|e es IH]; intros L Hm Hlen.
  - simpl. rewrite app_nil_r. symmetry. now apply lastN_all.
  - simpl. rewrite IH.
    + rewrite maxLogs_addLog, logs_addLog by exact Hm.
      rewrite lastN_app_lastN. now rewrite <- app_assoc.
    + now rewrite maxLogs_addLog.
    + rewrite maxLogs_addLog, logs_addLog by exact Hm.
      rewrite length_lastN. lia.
Qed.

Lemma logs_create (path : string) (max : Z) (r : FileRead) :
  (0 < max)%Z ->
  maxLogs (create path max r) = max
  /\ logs (create path max r)
     = match r with
       | Lines ls =>
           match parseAll ls with
           | Some os => lastN (Z.to_nat max) os
           | None => []
           end
       | _ => []
       end.
Proof.
  intros Hm. unfold create, loadLogs.
  destruct r as [| | ls]; simpl; try (split; reflexivity).
  destruct (parseAll ls) as [os|]; simpl; [|split; reflexivity].
  split; [reflexivity|]. now apply sliceFrom_lastN.
Qed.

End LoggerFacts.

(** C9: a recorder created with a positive [maxLogs] holds at most that
    many records once the persisted ones are loaded, namely the last
    [maxLogs] lines of the file, and after any run of appends it holds
    exactly the last [maxLogs] of the loaded records followed by the
    appended ones, in their order: the oldest are the ones dropped. *)
Theorem recorder_keeps_most_recent
    (path : string) (max : Z) (r : Logger.FileRead) (es : list (string * Js.obj)) :
  (0 < max)%Z ->
  let L0 := Logger.create path max r in
  let L := Logger.appendAll es L0 in
  (List.length (Logger.logs L0) <= Z.to_nat max)%nat /\
  (forall ls os, r = Logger.Lines ls -> Logger.parseAll ls = Some os ->
                 Logger.logs L0 = Words.lastN (Z.to_nat max) os) /\
  (List.length (Logger.logs L) <= Z.to_nat max)%nat /\
  Logger.logs L
  = Words.lastN (Z.to_nat max)
      (Logger.logs L0 ++ List.map (fun e => Logger.enrich (fst e) (snd e)) es).
Proof.
  intros Hm L0 L.
  destruct (logs_create path max r Hm) as [Hmax Hlogs]. fold L0 in Hmax, Hlogs.
  assert (Hlen0 : (List.length (Logger.logs L0) <= Z.to_nat max)%nat).
  { rewrite Hlogs. destruct r as [| | ls]; simpl; try lia.
    destruct (Logger.parseAll ls); simpl; [|lia]. rewrite length_lastN. lia. }
  assert (HL : Logger.logs L
               = Words.lastN (Z.to_nat max)
                   (Logger.logs L0
                    ++ List.map (fun e => Logger.enrich (fst e) (snd e)) es)).
  { subst L. rewrite logs_appendAll; rewrite Hmax; auto. }
  split; [exact Hlen0|]. split; [|split].
  - intros ls os -> Hparse. rewrite Hlogs, Hparse. reflexivity.
  - rewrite HL, length_lastN. lia.
  - exact HL.
Qed.

Lemma recorder_keeps_most_recent_witness :
  (0 < 100)%Z /\
  (List.length (Logger.logs (Logger.appendAll
      [("2023-11-14T22:13:20.000Z", Logger.startEntry 1700000000000%float LoggerSample.aliceStart)]
      (Logger.createDefault Logger.NoFile))) <= 100)%nat.
Proof.
  assert (Hm : (0 < 100)%Z) by lia.
  split; [exact Hm|].
  exact (proj1 (proj2 (proj2
    (recorder_keeps_most_recent "logs/transcode.log" 100 Logger.NoFile
       [("2023-11-14T22:13:20.000Z",
         Logger.startEntry 1700000000000%float LoggerSample.aliceStart)] Hm)))).
Defined.

(** ** Terminal records and the start record *)

Section ContextFacts.
Import Js Logger Words.

Lemma completeEntry_context (ts : string) (o : option obj) (a : CompleteInfo) (k : string) :
  In k contextFields ->
  get (enrich ts (completeEntry o a)) k = jsOr (optGet o k) JNull.
Proof.
  unfold contextFields. simpl.
  intros [<- | [<- | [<- | [<- | [<- | [<- | [<- | []]]]]]]]; reflexivity.
Qed.

Lemma failedEntry_context (ts : string) (o : option obj) (e : ErrorInfo) (k : string) :
  In k contextFields ->
  get (enrich ts (failedEntry o e)) k = jsOr (optGet o k) JNull.
Proof.
  unfold contextFields. simpl.
  intros [<- | [<- | [<- | [<- | [<- | [<- | [<- | []]]]]]]]; reflexivity.
Qed.

Lemma find_app_found {A : Type} (p : A -> bool) (l l' : list A) (x : A) :
  List.find p l = Some x -> List.find p (l ++ l') = Some x.
Proof.
  induction l as [|y l IH]; simpl; [discriminate|].
  destruct (p y); [trivial | exact IH].
Qed.

End ContextFacts.

(** C8, as stated, fails: in the scenario of test-logs.js the start record
    holds an empty [browserInfo] and a [userHP] of 0, and the completed
    record that follows holds [null] for both, not copies of them. *)
Lemma terminal_context_not_copied :
  match Logger.findStart (Js.JStr "test001") LoggerSample.started,
        last (Logger.logs LoggerSample.completed) with
  | Some s, Some t =>
      Js.get s "status" = Js.JStr "started"
      /\ Js.get t "status" = Js.JStr "completed"
      /\ Js.get t "id" = Js.get s "id"
      /\ Js.get s "browserInfo" = Js.JStr ""
      /\ Js.get t "browserInfo" = Js.JNull
      /\ Js.get t "browserInfo" <> Js.get s "browserInfo"
      /\ Js.get s "userHP" = Js.JNum zero
      /\ Js.get t "userHP" = Js.JNull
      /\ Js.get t "userHP" <> Js.get s "userHP"
  | _, _ => False
  end.
Proof.
  vm_compute. repeat split; discriminate.
Qed.

(** C8, amended: when the start record of the request is retained, each
    contextual field of the completed or failed record is the value the
    start record holds for it when that value is truthy and is [null]
    otherwise (an empty string and 0 become [null]); the start record is
    found by the request id among the retained records; the append leaves
    every retained older record as it was, the new record coming last,
    and below the bound nothing is dropped, so the start record is still
    the one found afterwards. *)
Theorem terminal_record_context
    (ts : string) (L : Logger.TranscodeLogger) (id : Js.JsVal) (s : Js.obj)
    (a : Logger.CompleteInfo) (e : Logger.ErrorInfo) :
  (0 < Logger.maxLogs L)%Z ->
  Logger.findStart id L = Some s ->
  Logger.c_id a = id ->
  Logger.e_id e = id ->
  let tc := Logger.enrich ts (Logger.completeEntry (Some s) a) in
  let te := Logger.enrich ts (Logger.failedEntry (Some s) e) in
  (In s (Logger.logs L) /\ Logger.isStartOf id s = true) /\
  (forall k, In k Logger.contextFields ->
             Js.get tc k = Js.jsOr (Js.get s k) Js.JNull
             /\ Js.get te k = Js.jsOr (Js.get s k) Js.JNull) /\
  (forall k, In k Logger.contextFields -> Js.truthy (Js.get s k) = true ->
             Js.get tc k = Js.get s k /\ Js.get te k = Js.get s k) /\
  (exists n, Logger.logs (Logger.logTranscodeComplete ts a L)
             = drop n (Logger.logs L) ++ [tc]) /\
  (exists n, Logger.logs (Logger.logTranscodeError ts e L)
             = drop n (Logger.logs L) ++ [te]) /\
  ((Z.of_nat (List.length (Logger.logs L)) < Logger.maxLogs L)%Z ->
   Logger.logs (Logger.logTranscodeComplete ts a L) = Logger.logs L ++ [tc]
   /\ Logger.logs (Logger.logTranscodeError ts e L) = Logger.logs L ++ [te]
   /\ Logger.findStart id (Logger.logTranscodeComplete ts a L) = Some s
   /\ Logger.findStart id (Logger.logTranscodeError ts e L) = Some s).
Proof.
  intros Hm Hs Ha He tc te.
  assert (Hc : Logger.logs (Logger.logTranscodeComplete ts a L)
               = Words.lastN (Z.to_nat (Logger.maxLogs L)) (Logger.logs L ++ [tc])).
  { unfold Logger.logTranscodeComplete. rewrite Ha, Hs. now apply logs_addLog. }
  assert (Hf : Logger.logs (Logger.logTranscodeError ts e L)
               = Words.lastN (Z.to_nat (Logger.maxLogs L)) (Logger.logs L ++ [te])).
  { unfold Logger.logTranscodeError. rewrite He, Hs. now apply logs_addLog. }
  split; [|split; [|split; [|split; [|split]]]].
  - unfold Logger.findStart, Js.find in Hs. apply find_some in Hs. exact Hs.
  - intros k Hk. split.
    + apply (completeEntry_context ts (Some s) a k Hk).
    + apply (failedEntry_context ts (Some s) e k Hk).
  - intros k Hk Ht. unfold tc, te.
    rewrite (completeEntry_context ts (Some s) a k Hk),
            (failedEntry_context ts (Some s) e k Hk).
    unfold Js.jsOr. simpl. rewrite Ht. split; reflexivity.
  - rewrite Hc. apply lastN_suffix. lia.
  - rewrite Hf. apply lastN_suffix. lia.
  - intros Hlt.
    assert (Hc' : Logger.logs (Logger.logTranscodeComplete ts a L) = Logger.logs L ++ [tc]).
    { rewrite Hc. apply lastN_all. rewrite length_app. simpl. lia. }
    assert (Hf' : Logger.logs (Logger.logTranscodeError ts e L) = Logger.logs L ++ [te]).
    { rewrite Hf. apply lastN_all. rewrite length_app. simpl. lia. }
    split; [exact Hc'|]. split; [exact Hf'|].
    unfold Logger.findStart, Js.find in *. rewrite Hc', Hf'.
    split; now apply find_app_found.
Qed.

Lemma terminal_record_context_witness :
  (0 < Logger.maxLogs LoggerSample.started)%Z /\
  Logger.findStart (Js.JStr "test001") LoggerSample.started
  = Some LoggerSample.startRecord /\
  Js.get (Logger.enrich "2023-11-14T22:13:23.200Z"
            (Logger.completeEntry (Some LoggerSample.startRecord)
               LoggerSample.aliceComplete)) "platform"
  = Js.get LoggerSample.startRecord "platform".
Proof.
  assert (Hm : (0 < Logger.maxLogs LoggerSample.started)%Z) by reflexivity.
  assert (Hs : Logger.findStart (Js.JStr "test001") LoggerSample.started
               = Some LoggerSample.startRecord) by reflexivity.
  split; [exact Hm|]. split; [exact Hs|].
  refine (proj1 (proj1 (proj2 (proj2 (terminal_record_context
            "2023-11-14T22:13:23.200Z" LoggerSample.started (Js.JStr "test001")
            LoggerSample.startRecord
            LoggerSample.aliceComplete LoggerSample.aliceError Hm Hs eq_refl eq_refl)))
          "platform" _ _)).
  - simpl. auto.
  - reflexivity.
Defined.


(** ** The transcode handler of server.js *)

Section ServerFacts.
Import Js Logger Server.

Lemma transcode_throws env out req (w : World) :
  transcode env out req w = (w, Threw (JErr "formData is not defined")).
Proof. reflexivity. Qed.

End ServerFacts.

(** C2, in the code: a request without a file reaches neither the record
    of its start nor the test of [req.file]. The body of the handler
    throws at its first use of [formData], a name nothing binds, so the
    promise of the handler rejects: no response is sent, the recorder
    receives no record, neither Started nor Failed, and nothing is
    spawned, posted or removed. *)
Theorem missing_file_request_throws
    (env : Server.Env) (out : Server.Outside) (req : Server.Request) (w : Server.World) :
  Server.file req = None ->
  let r := Server.transcode env out req w in
  snd r = Server.Threw (Js.JErr "formData is not defined") /\
  (forall resp, snd r <> Server.Responded resp) /\
  Logger.logs (Server.logger (fst r)) = Logger.logs (Server.logger w) /\
  Server.trace (fst r) = Server.trace w.
Proof.
  intros _ r. subst r. rewrite transcode_throws. cbn [fst snd].
  split; [reflexivity|]. split; [discriminate|]. split; reflexivity.
Qed.

Lemma missing_file_request_throws_witness :
  Server.file ServerSample.withoutFile = None /\
  snd (Server.transcode ServerSample.env ServerSample.outside ServerSample.withoutFile
         ServerSample.world0)
  = Server.Threw (Js.JErr "formData is not defined") /\
  Logger.logs (Server.logger
                 (fst (Server.transcode ServerSample.env ServerSample.outside
                         ServerSample.withoutFile ServerSample.world0))) = [].
Proof.
  destruct (missing_file_request_throws ServerSample.env ServerSample.outside
              ServerSample.withoutFile ServerSample.world0 eq_refl)
    as (Hthrow & _ & Hlogs & _).
  split; [reflexivity|]. split; [exact Hthrow|]. rewrite Hlogs. reflexivity.
Defined.

(** C5, in the code: the [try] statement with its [finally] block stands
    after the statement that throws, so on a request with a file no
    removal is attempted at all: the handler leaves the temporary
    directory as it found it, the file multer wrote for the request
    included. *)
Theorem upload_is_not_removed
    (env : Server.Env) (out : Server.Outside) (req : Server.Request) (w : Server.World)
    (f : Server.UploadedFile) :
  Server.file req = Some f ->
  let r := Server.transcode env out req w in
  snd r = Server.Threw (Js.JErr "formData is not defined") /\
  Server.trace (fst r) = Server.trace w /\
  Server.disk (fst r) = Server.disk w /\
  Server.disk (fst r) !! Server.path f = Server.disk w !! Server.path f.
Proof.
  intros _ r. subst r. rewrite transcode_throws. cbn [fst snd].
  repeat split; reflexivity.
Qed.

Lemma upload_is_not_removed_witness :
  Server.file ServerSample.withFile = Some ServerSample.upload1 /\
  Server.trace (fst (Server.transcode ServerSample.env ServerSample.outside
                       ServerSample.withFile ServerSample.world0)) = [] /\
  Server.disk (fst (Server.transcode ServerSample.env ServerSample.outside
                      ServerSample.withFile ServerSample.world0))
  !! "/tmp/1700000000000-kickflip.mov" = Some true.
Proof.
  destruct (upload_is_not_removed ServerSample.env ServerSample.outside
              ServerSample.withFile ServerSample.world0 ServerSample.upload1 eq_refl)
    as (_ & Htrace & _ & Hfile).
  split; [reflexivity|]. split; [exact Htrace|].
  change "/tmp/1700000000000-kickflip.mov" with (Server.path ServerSample.upload1).
  rewrite Hfile. reflexivity.
Defined.

(** C6, in the code: nothing binds [formData] or [sessionId] (the module
    imports [FormData]); the first declaration of the handler that throws
    is the one of line 173; every call of the handler, with or without a
    file, ends with its ReferenceError and sends no response, so no body
    with an identifier, a request id or a duration is ever produced. *)
Theorem no_request_is_answered
    (env : Server.Env) (out : Server.Outside) (req : Server.Request) (w : Server.World) :
  Server.bound "formData" = false /\
  Server.bound "sessionId" = false /\
  Server.bound "FormData" = true /\
  Server.firstThrow (Server.parameterNames ++ Server.moduleNames ++ Server.globalNames)
    Server.declarations = Some (173%nat, "formData") /\
  snd (Server.transcode env out req w) = Server.Threw (Js.JErr "formData is not defined") /\
  (forall resp, snd (Server.transcode env out req w) <> Server.Responded resp) /\
  fst (Server.transcode env out req w) = w.
Proof.
  rewrite transcode_throws. cbn [fst snd].
  split; [reflexivity|]. split; [reflexivity|]. split; [reflexivity|].
  split; [reflexivity|]. split; [reflexivity|]. split; [discriminate | reflexivity].
Qed.

(** * Further properties of the sources *)

(** ** The recorder: reading back, loading, ids *)

Section RecorderMore.
Import Js Logger Words Dashboard.

Lemma logs_addLog_room (ts : string) (e : obj) (L : TranscodeLogger) :
  (Z.of_nat (List.length (logs L)) < maxLogs L)%Z ->
  logs (addLog ts e L) = logs L ++ [enrich ts e].
Proof.
  intros H. rewrite logs_addLog by lia. apply lastN_all.
  rewrite length_app. simpl. lia.
Qed.

Lemma count_snoc {A : Type} (p : A -> bool) (l : list A) (x : A) :
  List.length (List.filter p (l ++ [x]))
  = (List.length (List.filter p l) + (if p x then 1 else 0))%nat.
Proof.
  rewrite List.filter_app, length_app. simpl. destruct (p x); reflexivity.
Qed.

Lemma parseAll_corrupt (ls : list (option obj)) :
  In None ls -> parseAll ls = None.
Proof.
  induction ls as [|[o|] ls IH]; simpl; intros H.
  - destruct H.
  - destruct H as [H | H]; [discriminate|]. now rewrite IH.
  - reflexivity.
Qed.

Lemma sliceFrom_zero {A : Type} (l : list A) : sliceFrom (- 0) l = l.
Proof.
  unfold sliceFrom. change (- 0)%Z with 0%Z.
  change (0 <? 0)%Z with false. cbv iota.
  rewrite Z.min_l by lia. reflexivity.
Qed.

Lemma strictEq_missing (x id : JsVal) :
  id = JUndefined \/ id = JNull \/ id = JStr "" ->
  truthy x = true -> strictEq x id = false.
Proof.
  intros [-> | [-> | ->]] Hx; destruct x; simpl in *; try reflexivity; try discriminate.
  destruct (String.eqb_spec s ""); [subst; discriminate | reflexivity].
Qed.

Lemma find_none_all {A : Type} (p : A -> bool) (l : list A) :
  (forall x, In x l -> p x = false) -> List.find p l = None.
Proof.
  induction l as [|y l IH]; simpl; intros H; [reflexivity|].
  rewrite (H y) by now left. apply IH. intros x Hx. apply H. now right.
Qed.

Lemma enrich_id_truthy (ts : string) (e : obj) : truthy (get (enrich ts e) "id") = true.
Proof.
  unfold enrich, get. rewrite lookup_insert_eq. simpl. unfold jsOr.
  destruct (truthy (default JUndefined (e !! "id"))) eqn:H; [exact H | reflexivity].
Qed.

Lemma enrich_id_missing (ts : string) (e : obj) :
  truthy (get e "id") = false -> get (enrich ts e) "id" = JStr "unknown".
Proof.
  intros H. unfold enrich. unfold get at 1. rewrite lookup_insert_eq. simpl.
  unfold jsOr. now rewrite H.
Qed.



End RecorderMore.

(** X1: [getRecentLogs(limit)] with a positive limit returns the last
    [limit] retained records, all of them when there are fewer, the newest
    first; right after an append the record just appended comes first. *)
Theorem getRecentLogs_newest_first
    (limit : Z) (ts : string) (e : Js.obj) (L : Logger.TranscodeLogger) :
  (0 < limit)%Z ->
  (0 < Logger.maxLogs L)%Z ->
  List.length (Logger.getRecentLogs limit L)
  = Nat.min (Z.to_nat limit) (List.length (Logger.logs L)) /\
  (exists older, Logger.logs L = older ++ rev (Logger.getRecentLogs limit L)) /\
  head (Logger.getRecentLogs limit (Logger.addLog ts e L)) = Some (Logger.enrich ts e).
Proof.
  intros Hl Hm. unfold Logger.getRecentLogs. rewrite !sliceFrom_lastN by lia.
  split; [|split].
  - rewrite length_rev, length_lastN. reflexivity.
  - rewrite rev_involutive. unfold Words.lastN.
    eexists. symmetry. apply take_drop.
  - rewrite logs_addLog by exact Hm.
    destruct (lastN_suffix (Z.to_nat (Logger.maxLogs L)) (Logger.logs L)
                (Logger.enrich ts e)) as [k ->]; [lia|].
    destruct (lastN_suffix (Z.to_nat limit) (drop k (Logger.logs L))
                (Logger.enrich ts e)) as [k' ->]; [lia|].
    rewrite rev_unit. reflexivity.
Qed.

Lemma getRecentLogs_newest_first_witness :
  (0 < 10)%Z /\ (0 < Logger.maxLogs LoggerSample.started)%Z /\
  head (Logger.getRecentLogs 10
          (Logger.addLog "2023-11-14T22:13:23.200Z"
             (Logger.completeEntry None LoggerSample.aliceComplete) LoggerSample.started))
  = Some (Logger.enrich "2023-11-14T22:13:23.200Z"
            (Logger.completeEntry None LoggerSample.aliceComplete)).
Proof.
  assert (H1 : (0 < 10)%Z) by reflexivity.
  assert (H2 : (0 < Logger.maxLogs LoggerSample.started)%Z) by reflexivity.
  split; [exact H1|]. split; [exact H2|].
  exact (proj2 (proj2 (getRecentLogs_newest_first 10 "2023-11-14T22:13:23.200Z"
                         (Logger.completeEntry None LoggerSample.aliceComplete)
                         LoggerSample.started H1 H2))).
Defined.



Example getLogs_limit_values :
  Dashboard.queryLimit (Some "25") = Js.PInt 25
  /\ Dashboard.queryLimit (Some "3.7") = Js.PInt 3
  /\ Dashboard.queryLimit (Some "0x10") = Js.PInt 16
  /\ Dashboard.queryLimit (Some "all") = Js.PInt 10
  /\ Dashboard.queryLimit (Some "0") = Js.PInt 10
  /\ Dashboard.queryLimit (Some "-5") = Js.PInt (-5)
  /\ Dashboard.queryLimit (Some (String Js.noBreakSpace " 5")) = Js.PInt 5.
Proof. repeat split; reflexivity. Qed.

Section StatsMore.
Import Js Logger Words.

Variable StringToNumber : string -> float.

Lemma getStats_snoc (L L' : TranscodeLogger) (x : obj) :
  logs L' = logs L ++ [x] ->
  total (getStats StringToNumber L') = S (total (getStats StringToNumber L))
  /\ successful (getStats StringToNumber L')
     = (successful (getStats StringToNumber L) + (if isSuccess x then 1 else 0))%nat
  /\ failed (getStats StringToNumber L')
     = (failed (getStats StringToNumber L) + (if isFailure x then 1 else 0))%nat
  /\ inProgress (getStats StringToNumber L')
     = (inProgress (getStats StringToNumber L) + (if isInProgress x then 1 else 0))%nat.
Proof.
  intros H. simpl. rewrite H, !count_snoc, length_app. simpl.
  repeat split; lia.
Qed.

Lemma filter_none {A : Type} (p : A -> bool) (l : list A) :
  (forall x, In x l -> p x = false) -> List.filter p l = [].
Proof.
  induction l as [|y l IH]; simpl; intros H; [reflexivity|].
  rewrite (H y) by now left. apply IH. intros x Hx. apply H. now right.
Qed.

Lemma success_not_failure (log : obj) : isSuccess log = true -> isFailure log = false.
Proof.
  unfold isSuccess, isFailure. destruct (get log "success") as [| | [|] | | |]; simpl;
    intros H; try discriminate; reflexivity.
Qed.

Lemma success_failure_le (l : list obj) :
  (List.length (List.filter isSuccess l) + List.length (List.filter isFailure l)
   <= List.length l)%nat.
Proof.
  induction l as [|x l IH]; simpl; [lia|].
  destruct (isSuccess x) eqn:Hs.
  - rewrite (success_not_failure x Hs). simpl. lia.
  - destruct (isFailure x); simpl; lia.
Qed.

End StatsMore.

(** X4: on a recorder with room for two more records, a start followed by
    its completion raises the total by two and the successful count by
    one; followed by its failure it raises the failed count by one
    instead; in both cases [inProgress] is one higher than before the
    request, because the start record of a finished request keeps its
    status. *)
Theorem stats_after_request
    (StringToNumber : string -> float) (startTime : float) (ts1 ts2 : string)
    (a : Logger.StartInfo) (c : Logger.CompleteInfo) (e : Logger.ErrorInfo)
    (L : Logger.TranscodeLogger) :
  (Z.of_nat (List.length (Logger.logs L)) + 2 <= Logger.maxLogs L)%Z ->
  let L1 := Logger.logTranscodeStart startTime ts1 a L in
  let before := Logger.getStats StringToNumber L in
  let done := Logger.getStats StringToNumber (Logger.logTranscodeComplete ts2 c L1) in
  let fail := Logger.getStats StringToNumber (Logger.logTranscodeError ts2 e L1) in
  (Logger.total done = Logger.total before + 2
   /\ Logger.successful done = Logger.successful before + 1
   /\ Logger.failed done = Logger.failed before
   /\ Logger.inProgress done = Logger.inProgress before + 1)%nat /\
  (Logger.total fail = Logger.total before + 2
   /\ Logger.successful fail = Logger.successful before
   /\ Logger.failed fail = Logger.failed before + 1
   /\ Logger.inProgress fail = Logger.inProgress before + 1)%nat.
Proof.
  intros Hroom L1 before done fail.
  assert (H1 : Logger.logs L1
               = Logger.logs L ++ [Logger.enrich ts1 (Logger.startEntry startTime a)]).
  { apply logs_addLog_room. lia. }
  assert (Hm1 : Logger.maxLogs L1 = Logger.maxLogs L) by reflexivity.
  assert (Hlen1 : List.length (Logger.logs L1) = S (List.length (Logger.logs L))).
  { rewrite H1, length_app. simpl. lia. }
  destruct (getStats_snoc StringToNumber L L1 _ H1) as (Ht1 & Hs1 & Hf1 & Hp1).
  fold before in Ht1, Hs1, Hf1, Hp1.
  change (Logger.isSuccess (Logger.enrich ts1 (Logger.startEntry startTime a)))
    with false in Hs1.
  change (Logger.isFailure (Logger.enrich ts1 (Logger.startEntry startTime a)))
    with false in Hf1.
  change (Logger.isInProgress (Logger.enrich ts1 (Logger.startEntry startTime a)))
    with true in Hp1.
  split.
  - destruct (getStats_snoc StringToNumber L1 (Logger.logTranscodeComplete ts2 c L1)
                (Logger.enrich ts2 (Logger.completeEntry
                                      (Logger.findStart (Logger.c_id c) L1) c)))
      as (Ht & Hs & Hf & Hp).
    { apply logs_addLog_room. rewrite Hm1, Hlen1. lia. }
    fold done in Ht, Hs, Hf, Hp.
    change (Logger.isSuccess (Logger.enrich ts2 (Logger.completeEntry
              (Logger.findStart (Logger.c_id c) L1) c))) with true in Hs.
    change (Logger.isFailure (Logger.enrich ts2 (Logger.completeEntry
              (Logger.findStart (Logger.c_id c) L1) c))) with false in Hf.
    change (Logger.isInProgress (Logger.enrich ts2 (Logger.completeEntry
              (Logger.findStart (Logger.c_id c) L1) c))) with false in Hp.
    cbv iota in Hs, Hf, Hp, Hs1, Hf1, Hp1. lia.
  - destruct (getStats_snoc StringToNumber L1 (Logger.logTranscodeError ts2 e L1)
                (Logger.enrich ts2 (Logger.failedEntry
                                      (Logger.findStart (Logger.e_id e) L1) e)))
      as (Ht & Hs & Hf & Hp).
    { apply logs_addLog_room. rewrite Hm1, Hlen1. lia. }
    fold fail in Ht, Hs, Hf, Hp.
    change (Logger.isSuccess (Logger.enrich ts2 (Logger.failedEntry
              (Logger.findStart (Logger.e_id e) L1) e))) with false in Hs.
    change (Logger.isFailure (Logger.enrich ts2 (Logger.failedEntry
              (Logger.findStart (Logger.e_id e) L1) e))) with true in Hf.
    change (Logger.isInProgress (Logger.enrich ts2 (Logger.failedEntry
              (Logger.findStart (Logger.e_id e) L1) e))) with false in Hp.
    cbv iota in Hs, Hf, Hp, Hs1, Hf1, Hp1. lia.
Qed.

Lemma stats_after_request_witness :
  (Z.of_nat (List.length (Logger.logs (Logger.createDefault Logger.NoFile))) + 2
   <= Logger.maxLogs (Logger.createDefault Logger.NoFile))%Z /\
  Logger.inProgress (Logger.getStats (fun _ => nan) LoggerSample.completed) = 1%nat.
Proof.
  assert (H : (Z.of_nat (List.length (Logger.logs (Logger.createDefault Logger.NoFile))) + 2
               <= Logger.maxLogs (Logger.createDefault Logger.NoFile))%Z)
    by (intros Hc; discriminate Hc).
  split; [exact H|].
  exact (proj2 (proj2 (proj2 (proj1
    (stats_after_request (fun _ => nan) 1700000000000%float
       "2023-11-14T22:13:20.000Z" "2023-11-14T22:13:23.200Z"
       LoggerSample.aliceStart LoggerSample.aliceComplete LoggerSample.aliceError
       (Logger.createDefault Logger.NoFile) H))))).
Defined.

(** X5: in every state of the recorder the successful and the failed
    records together never count more than the retained ones, nor do the
    ones in progress; when no retained record is a success with a
    duration other than 0 or null the average duration is 0; and an empty
    recorder reports 0 for every figure. *)
Theorem stats_counts_within_total
    (StringToNumber : string -> float) (L : Logger.TranscodeLogger) :
  let st := Logger.getStats StringToNumber L in
  (Logger.successful st + Logger.failed st <= Logger.total st)%nat /\
  (Logger.inProgress st <= Logger.total st)%nat /\
  ((forall log, In log (Logger.logs L) -> Logger.timed log = false) ->
   Logger.avgDuration st = zero) /\
  (Logger.logs L = [] ->
   Logger.total st = 0%nat /\ Logger.successful st = 0%nat /\ Logger.failed st = 0%nat
   /\ Logger.inProgress st = 0%nat /\ Logger.successRate st = zero
   /\ Logger.avgDuration st = zero).
Proof.
  intros st. subst st.
  split; [apply success_failure_le|]. split; [apply filter_length_le|]. split.
  - intros H. simpl. rewrite (filter_none _ _ H). reflexivity.
  - intros H. unfold Logger.getStats. rewrite H. repeat split; reflexivity.
Qed.

Example stats_of_a_started_request :
  let st := Logger.getStats (fun _ => nan) LoggerSample.started in
  Logger.total st = 1%nat /\ Logger.inProgress st = 1%nat
  /\ Logger.successful st = 0%nat /\ Logger.avgDuration st = zero.
Proof. cbv zeta. repeat split; vm_compute; reflexivity. Qed.

(** X6: one line of the log file that does not parse, or a file that
    cannot be read, makes the recorder start empty: the records of the
    lines that do parse are discarded with it. *)
Theorem loadLogs_discards_on_error
    (path : string) (max : Z) (ls : list (option Js.obj)) :
  In None ls ->
  Logger.logs (Logger.create path max (Logger.Lines ls)) = [] /\
  Logger.logs (Logger.create path max Logger.Unreadable) = [] /\
  Logger.maxLogs (Logger.create path max (Logger.Lines ls)) = max.
Proof.
  intros H. unfold Logger.create, Logger.loadLogs.
  rewrite (parseAll_corrupt ls H). repeat split.
Qed.

Lemma loadLogs_discards_on_error_witness :
  In None [Some LoggerSample.startRecord; None; Some LoggerSample.startRecord] /\
  Logger.logs (Logger.createDefault RecorderSample.corruptFile) = [].
Proof.
  assert (H : In None [Some LoggerSample.startRecord; None; Some LoggerSample.startRecord])
    by (right; left; reflexivity).
  split; [exact H|].
  exact (proj1 (loadLogs_discards_on_error "logs/transcode.log" 100 _ H)).
Defined.

(** X7: a record appended without an id (absent, null or empty) is kept
    under the id [unknown], and the lookup of the start record, made
    with the id as it was passed, then finds nothing among records that
    all carry an id: the completed record of such a request is itself
    kept under [unknown] and every contextual field of it is null, though
    its start record is retained. *)
Theorem missing_id_loses_context
    (startTime : float) (ts1 ts2 : string) (id : Js.JsVal)
    (a : Logger.StartInfo) (c : Logger.CompleteInfo) (L : Logger.TranscodeLogger) :
  id = Js.JUndefined \/ id = Js.JNull \/ id = Js.JStr "" ->
  Logger.s_id a = id ->
  Logger.c_id c = id ->
  (Z.of_nat (List.length (Logger.logs L)) + 2 <= Logger.maxLogs L)%Z ->
  (forall log, In log (Logger.logs L) -> Js.truthy (Js.get log "id") = true) ->
  let L1 := Logger.logTranscodeStart startTime ts1 a L in
  let L2 := Logger.logTranscodeComplete ts2 c L1 in
  Logger.findStart id L1 = None /\
  exists s t,
    Logger.logs L2 = Logger.logs L ++ [s; t]
    /\ Js.get s "status" = Js.JStr "started"
    /\ Js.get s "id" = Js.JStr "unknown"
    /\ Js.get t "status" = Js.JStr "completed"
    /\ Js.get t "id" = Js.JStr "unknown"
    /\ forall k, In k Logger.contextFields -> Js.get t k = Js.JNull.
Proof.
  intros Hid Ha Hc Hroom Hids L1 L2.
  assert (H1 : Logger.logs L1
               = Logger.logs L ++ [Logger.enrich ts1 (Logger.startEntry startTime a)]).
  { apply logs_addLog_room. lia. }
  assert (Hnone : Logger.findStart id L1 = None).
  { unfold Logger.findStart, Js.find. apply find_none_all. intros x Hx.
    unfold Logger.isStartOf. rewrite strictEq_missing; [reflexivity | exact Hid |].
    rewrite H1 in Hx. apply in_app_or in Hx as [Hx | [<- | []]].
    - now apply Hids.
    - apply enrich_id_truthy. }
  split; [exact Hnone|].
  exists (Logger.enrich ts1 (Logger.startEntry startTime a)),
         (Logger.enrich ts2 (Logger.completeEntry None c)).
  split; [|split; [|split; [|split; [|split]]]].
  - subst L2. unfold Logger.logTranscodeComplete. rewrite Hc, Hnone.
    rewrite logs_addLog_room.
    + rewrite H1, <- app_assoc. reflexivity.
    + change (Logger.maxLogs L1) with (Logger.maxLogs L).
      rewrite H1, length_app. simpl. lia.
  - reflexivity.
  - apply enrich_id_missing.
    change (Js.get (Logger.startEntry startTime a) "id") with (Logger.s_id a).
    rewrite Ha. destruct Hid as [-> | [-> | ->]]; reflexivity.
  - reflexivity.
  - apply enrich_id_missing.
    change (Js.get (Logger.completeEntry None c) "id") with (Logger.c_id c).
    rewrite Hc. destruct Hid as [-> | [-> | ->]]; reflexivity.
  - intros k Hk. rewrite completeEntry_context by exact Hk. reflexivity.
Qed.

Lemma missing_id_loses_context_witness :
  (Js.JUndefined = Js.JUndefined \/ Js.JUndefined = Js.JNull
   \/ Js.JUndefined = Js.JStr "") /\
  Logger.findStart Js.JUndefined
    (Logger.logTranscodeStart 1700000000000%float "2023-11-14T22:13:20.000Z"
       RecorderSample.namelessStart (Logger.createDefault Logger.NoFile)) = None.
Proof.
  assert (Hid : Js.JUndefined = Js.JUndefined \/ Js.JUndefined = Js.JNull
                \/ Js.JUndefined = Js.JStr "") by (left; reflexivity).
  split; [exact Hid|].
  refine (proj1 (missing_id_loses_context 1700000000000%float
            "2023-11-14T22:13:20.000Z" "2023-11-14T22:13:24.100Z" Js.JUndefined
            RecorderSample.namelessStart RecorderSample.namelessComplete
            (Logger.createDefault Logger.NoFile) Hid eq_refl eq_refl _ _)).
  - intros Hc; discriminate Hc.
  - intros log [].
Defined.

(** X8: the start record of a request is the oldest retained start record
    under its id: when a second start arrives under an id that already
    has one, the older one is still the one found, and the completed
    record takes its contextual fields from the older start record, not
    from the start record of its own request. *)
Theorem oldest_start_wins
    (startTime : float) (ts1 ts2 : string) (id : Js.JsVal) (s : Js.obj)
    (a : Logger.StartInfo) (c : Logger.CompleteInfo) (L : Logger.TranscodeLogger) :
  Logger.findStart id L = Some s ->
  Logger.s_id a = id ->
  Logger.c_id c = id ->
  (Z.of_nat (List.length (Logger.logs L)) + 2 <= Logger.maxLogs L)%Z ->
  let L1 := Logger.logTranscodeStart startTime ts1 a L in
  let L2 := Logger.logTranscodeComplete ts2 c L1 in
  Logger.findStart id L1 = Some s /\
  exists t,
    Logger.logs L2
    = Logger.logs L ++ [Logger.enrich ts1 (Logger.startEntry startTime a); t]
    /\ Js.get t "status" = Js.JStr "completed"
    /\ forall k, In k Logger.contextFields ->
                 Js.get t k = Js.jsOr (Js.get s k) Js.JNull.
Proof.
  intros Hs Ha Hc Hroom L1 L2.
  assert (H1 : Logger.logs L1
               = Logger.logs L ++ [Logger.enrich ts1 (Logger.startEntry startTime a)]).
  { apply logs_addLog_room. lia. }
  assert (Hfound : Logger.findStart id L1 = Some s).
  { unfold Logger.findStart, Js.find in *. rewrite H1. now apply find_app_found. }
  split; [exact Hfound|].
  exists (Logger.enrich ts2 (Logger.completeEntry (Some s) c)).
  split; [|split].
  - subst L2. unfold Logger.logTranscodeComplete. rewrite Hc, Hfound.
    rewrite logs_addLog_room.
    + rewrite H1, <- app_assoc. reflexivity.
    + change (Logger.maxLogs L1) with (Logger.maxLogs L).
      rewrite H1, length_app. simpl. lia.
  - reflexivity.
  - intros k Hk. apply (completeEntry_context ts2 (Some s) c k Hk).
Qed.

Lemma oldest_start_wins_witness :
  Logger.findStart (Js.JStr "test001") LoggerSample.started
  = Some LoggerSample.startRecord /\
  Logger.findStart (Js.JStr "test001")
    (Logger.logTranscodeStart 1700000005000%float "2023-11-14T22:13:25.000Z"
       RecorderSample.secondStart LoggerSample.started)
  = Some LoggerSample.startRecord.
Proof.
  assert (Hs : Logger.findStart (Js.JStr "test001") LoggerSample.started
               = Some LoggerSample.startRecord) by reflexivity.
  split; [exact Hs|].
  refine (proj1 (oldest_start_wins 1700000005000%float "2023-11-14T22:13:25.000Z"
            "2023-11-14T22:13:29.000Z" (Js.JStr "test001") LoggerSample.startRecord
            RecorderSample.secondStart LoggerSample.aliceComplete
            LoggerSample.started Hs eq_refl eq_refl _)).
  intros Hc; discriminate Hc.
Defined.

(** X9: a recorder created with [maxLogs] 0 has no bound at all: every
    append is kept and nothing is ever dropped. *)
Theorem zero_maxLogs_keeps_everything
    (es : list (string * Js.obj)) (L : Logger.TranscodeLogger) :
  Logger.maxLogs L = 0%Z ->
  Logger.logs (Logger.appendAll es L)
  = Logger.logs L ++ List.map (fun e => Logger.enrich (fst e) (snd e)) es /\
  List.length (Logger.logs (Logger.appendAll es L))
  = (List.length (Logger.logs L) + List.length es)%nat.
Proof.
  intros Hm.
  assert (H : Logger.logs (Logger.appendAll es L)
              = Logger.logs L ++ List.map (fun e => Logger.enrich (fst e) (snd e)) es).
  { revert L Hm. induction es as [|e es IH]; intros L Hm; simpl.
    - now rewrite app_nil_r.
    - rewrite IH by (rewrite maxLogs_addLog; exact Hm).
      unfold Logger.addLog, Logger.saveLogs. simpl. rewrite Hm, sliceFrom_zero.
      now rewrite <- app_assoc. }
  split; [exact H|]. rewrite H, length_app, length_map. reflexivity.
Qed.

Lemma zero_maxLogs_keeps_everything_witness :
  Logger.maxLogs RecorderSample.unbounded = 0%Z /\
  List.length (Logger.logs (Logger.appendAll
      (repeat ("2023-11-14T22:13:20.000Z", Logger.startEntry 1700000000000%float
                                             LoggerSample.aliceStart) 150)
      RecorderSample.unbounded)) = 150%nat.
Proof.
  assert (Hm : Logger.maxLogs RecorderSample.unbounded = 0%Z) by reflexivity.
  split; [exact Hm|].
  rewrite (proj2 (zero_maxLogs_keeps_everything
                    (repeat ("2023-11-14T22:13:20.000Z",
                             Logger.startEntry 1700000000000%float LoggerSample.aliceStart) 150)
                    RecorderSample.unbounded Hm)).
  rewrite repeat_length. reflexivity.
Defined.

(** ** The encoder: progress lines and chunks *)

Section ProgressFacts.
Import Js Progress.

Lemma str_app_nil_r (s : string) : s +:+ EmptyString = s.
Proof.
  induction s as [|c s IH]; [reflexivity|].
  change (String c s +:+ EmptyString) with (String c (s +:+ EmptyString)).
  now rewrite IH.
Qed.

Lemma str_app_assoc (a b c : string) : (a +:+ b) +:+ c = a +:+ (b +:+ c).
Proof.
  induction a as [|x a IH]; [reflexivity|].
  change (String x a +:+ b) with (String x (a +:+ b)).
  change (String x (a +:+ b) +:+ c) with (String x ((a +:+ b) +:+ c)).
  change (String x a +:+ (b +:+ c)) with (String x (a +:+ (b +:+ c))).
  now rewrite IH.
Qed.

Lemma prefix_split (t s : string) :
  String.prefix t s = true -> s = t +:+ dropStr (String.length t) s.
Proof.
  revert s. induction t as [|c t IH]; intros s H.
  - reflexivity.
  - destruct s as [|d s]; simpl in H; [discriminate|].
    destruct (Ascii.ascii_dec c d) as [<- | Hne]; [|discriminate].
    simpl. change (String c t +:+ dropStr (String.length t) s)
             with (String c (t +:+ dropStr (String.length t) s)).
    f_equal. now apply IH.
Qed.

Lemma prefix_app (t s : string) : String.prefix t (t +:+ s) = true.
Proof.
  induction t as [|c t IH]; [destruct s; reflexivity|].
  change (String c t +:+ s) with (String c (t +:+ s)). simpl.
  destruct (Ascii.ascii_dec c c) as [_ | Hne]; [exact IH | now elim Hne].
Qed.

Lemma dropStr_app (t s : string) : dropStr (String.length t) (t +:+ s) = s.
Proof.
  induction t as [|c t IH]; [destruct s; reflexivity|].
  change (String c t +:+ s) with (String c (t +:+ s)). simpl. exact IH.
Qed.

Lemma matchShape_sound (shape : list (ascii -> bool)) (s m : string) :
  matchShape shape s = Some m ->
  (exists post, s = m +:+ post)
  /\ String.length m = List.length shape
  /\ matchShape shape m = Some m.
Proof.
  revert s m. induction shape as [|p ps IH]; intros s m H; simpl in H.
  - injection H as <-. split; [now exists s|]. split; reflexivity.
  - destruct s as [|c s]; [discriminate|].
    destruct (p c) eqn:Hp; [|discriminate].
    destruct (matchShape ps s) as [m'|] eqn:Hm; [|discriminate].
    injection H as <-. destruct (IH s m' Hm) as ([post ->] & Hlen & Hfix).
    split; [now exists post|]. split; [simpl; now rewrite Hlen|].
    simpl. now rewrite Hp, Hfix.
Qed.

Lemma matchShape_app (shape : list (ascii -> bool)) (m post : string) :
  matchShape shape m = Some m -> matchShape shape (m +:+ post) = Some m.
Proof.
  revert m. induction shape as [|p ps IH]; intros m H; simpl in H.
  - injection H as <-. reflexivity.
  - destruct m as [|c m]; [discriminate|].
    destruct (p c) eqn:Hp; [|discriminate].
    destruct (matchShape ps m) as [m'|] eqn:Hm; [|discriminate].
    injection H as ->.
    change (String c m +:+ post) with (String c (m +:+ post)). simpl.
    now rewrite Hp, (IH m Hm).
Qed.

Lemma stampHere_sound (s m : string) :
  stampHere s = Some m ->
  (exists post, s = "time=" +:+ m +:+ post)
  /\ String.length m = 11%nat
  /\ matchShape stampShape m = Some m.
Proof.
  unfold stampHere. destruct (String.prefix "time=" s) eqn:Hp; [|discriminate].
  intros H. apply prefix_split in Hp. simpl String.length in Hp.
  destruct (matchShape_sound _ _ _ H) as ([post Hpost] & Hlen & Hfix).
  split; [|split; [exact Hlen | exact Hfix]].
  exists post. rewrite Hp at 1. now rewrite Hpost.
Qed.

Lemma progressMatch_sound (chunk m : string) :
  progressMatch chunk = Some m ->
  (exists pre post, chunk = pre +:+ "time=" +:+ m +:+ post)
  /\ String.length m = 11%nat
  /\ matchShape stampShape m = Some m.
Proof.
  induction chunk as [|c chunk IH]; intros H.
  - discriminate H.
  - cbn [progressMatch] in H. destruct (stampHere (String c chunk)) as [m'|] eqn:Hs.
    + injection H as ->. destruct (stampHere_sound _ _ Hs) as ([post Hpost] & Hlen & Hfix).
      split; [|split; assumption]. exists EmptyString, post. exact Hpost.
    + destruct (IH H) as ([pre [post Hc]] & Hlen & Hfix).
      split; [|split; assumption]. exists (String c pre), post.
      change (String c pre +:+ "time=" +:+ m +:+ post)
        with (String c (pre +:+ "time=" +:+ m +:+ post)).
      now rewrite <- Hc.
Qed.

Lemma progressMatch_here (s m : string) :
  stampHere s = Some m -> progressMatch s = Some m.
Proof.
  intros H. destruct s as [|c s].
  - discriminate H.
  - cbn [progressMatch]. now rewrite H.
Qed.

Lemma progressMatch_complete (pre m post : string) :
  matchShape stampShape m = Some m ->
  progressMatch (pre +:+ "time=" +:+ m +:+ post) <> None.
Proof.
  intros Hm. induction pre as [|c pre IH].
  - change (EmptyString +:+ "time=" +:+ m +:+ post) with ("time=" +:+ (m +:+ post)).
    assert (Hh : stampHere ("time=" +:+ (m +:+ post)) = Some m).
    { unfold stampHere. rewrite prefix_app.
      change 5%nat with (String.length "time="). rewrite dropStr_app.
      now apply matchShape_app. }
    rewrite (progressMatch_here _ _ Hh). discriminate.
  - change (String c pre +:+ "time=" +:+ m +:+ post)
      with (String c (pre +:+ "time=" +:+ m +:+ post)).
    cbn [progressMatch].
    destruct (stampHere (String c (pre +:+ "time=" +:+ m +:+ post)));
      [discriminate | exact IH].
Qed.

Lemma length_omap_le {A B : Type} (f : A -> option B) (l : list A) :
  (List.length (omap f l) <= List.length l)%nat.
Proof.
  induction l as [|x l IH]; csimpl; [lia|]. destruct (f x); csimpl; lia.
Qed.

End ProgressFacts.

(** X10: a progress value is reported for a chunk of diagnostics exactly
    when the chunk holds [time=] followed by a stamp of the form
    [dd:dd:dd.dd]; the value reported is such a stamp of 11 code units
    that follows a [time=] of the chunk; and a run reports at most one
    value for each chunk, whatever the number of stamps in the chunk. *)
Theorem progressMatch_reports_stamps (chunk : string) (r : Ffmpeg.Run) :
  (forall m, Progress.progressMatch chunk = Some m ->
             (exists pre post, chunk = pre +:+ "time=" +:+ m +:+ post)
             /\ String.length m = 11%nat
             /\ Progress.matchShape Progress.stampShape m = Some m) /\
  (forall pre m post,
     chunk = pre +:+ "time=" +:+ m +:+ post ->
     Progress.matchShape Progress.stampShape m = Some m ->
     Progress.progressMatch chunk <> None) /\
  (List.length (Progress.progressReports r) <= List.length (Ffmpeg.chunks r))%nat.
Proof.
  split; [|split].
  - intros m H. now apply progressMatch_sound.
  - intros pre m post -> Hm. now apply progressMatch_complete.
  - apply length_omap_le.
Qed.

Example progress_of_a_status_line :
  Progress.progressMatch
    "frame=  240 fps= 48 q=28.0 size=    512kB time=00:00:08.04 bitrate= 521.6kbits/s"
  = Some "00:00:08.04"
  /\ Progress.progressMatch "time=00:00:08.0" = None
  /\ Progress.progressMatch "time=00:00:01.00 time=00:00:02.00" = Some "00:00:01.00".
Proof. repeat split; reflexivity. Qed.

Example progress_depends_on_chunking :
  Progress.progressReports
    {| Ffmpeg.chunks := ["time=00:00:08.04"]; Ffmpeg.exitCode := Some 0%Z |}
  = ["00:00:08.04"]
  /\ Progress.progressReports
       {| Ffmpeg.chunks := ["time=00:00"; ":08.04"]; Ffmpeg.exitCode := Some 0%Z |}
     = [].
Proof. split; reflexivity. Qed.


(** ** The probing server: metadata and stages *)

Section ProbeHandlerFacts.
Import Js ProbeServer ProbeHandler.







Lemma unlinkQuietly_trace' (p : string) (w : World) :
  exists b, trace (unlinkQuietly p w) = trace w ++ [Unlinked p b].
Proof.
  unfold unlinkQuietly. destruct (Server.unlinkSync p (disk w)); eexists; reflexivity.
Qed.

End ProbeHandlerFacts.


Section ProbeStages.
Import Js ProbeServer ProbeHandler.

Lemma probe_unlink_gone (p : string) (w : World) :
  disk (unlinkQuietly p w) !! p <> Some true.
Proof.
  unfold unlinkQuietly, Server.unlinkSync.
  destruct (disk w !! p) as [[|]|] eqn:Hp; simpl.
  - rewrite lookup_delete_eq. discriminate.
  - rewrite Hp. discriminate.
  - rewrite Hp. discriminate.
Qed.

Lemma probe_unlink_keeps_gone (p q : string) (w : World) :
  disk w !! q <> Some true -> disk (unlinkQuietly p w) !! q <> Some true.
Proof.
  intros Hq. unfold unlinkQuietly, Server.unlinkSync.
  destruct (disk w !! p) as [[|]|] eqn:Hp; simpl; try exact Hq.
  destruct (decide (p = q)) as [-> | Hne].
  - rewrite lookup_delete_eq. discriminate.
  - now rewrite lookup_delete_ne.
Qed.

Lemma probe_unlink_other (p q : string) (w : World) :
  q <> p -> disk (unlinkQuietly p w) !! q = disk w !! q.
Proof.
  intros Hne. unfold unlinkQuietly, Server.unlinkSync.
  destruct (disk w !! p) as [[|]|]; simpl; try reflexivity.
  now rewrite lookup_delete_ne.
Qed.

Lemma attempt_trace env out req i n o (w : World) :
  exists steps,
    trace (fst (attempt env out req i n o w)) = trace w ++ Probed i :: steps
    /\ stepsOf env i o steps.
Proof.
  unfold attempt, stepsOf.
  destruct (execProbe (probe out)) as [[info | m] | err];
    [|exists nil; split; [reflexivity | now left]..].
  destruct (Ffmpeg.runFfmpeg (ffmpeg out)) as [settled | err]; cbv zeta.
  2:{ eexists. split; [cbn [fst trace emit]; rewrite <- app_assoc; reflexivity|].
      right. left. now exists info. }
  assert (H2 : trace (if ffmpegWrote out
                      then setDisk (<[o := true]>
                                      (disk (emit (Spawned (transcodeArgs info (config env) i o))
                                               (emit (Probed i) w))))
                             (emit (Spawned (transcodeArgs info (config env) i o))
                                (emit (Probed i) w))
                      else emit (Spawned (transcodeArgs info (config env) i o))
                             (emit (Probed i) w))
               = trace w ++ [Probed i; Spawned (transcodeArgs info (config env) i o)]).
  { destruct (ffmpegWrote out); simpl; now rewrite <- app_assoc. }
  remember (if ffmpegWrote out then _ else _) as w3 eqn:Hw3. clear Hw3.
  assert (Hshort : exists steps,
            trace w3 = trace w ++ Probed i :: steps
            /\ (steps = []
                \/ (exists info0, steps = [Spawned (transcodeArgs info0 (config env) i o)])
                \/ (exists info0 form,
                      steps = [Spawned (transcodeArgs info0 (config env) i o); Posted form]
                      /\ formFile form = o))).
  { eexists. split; [exact H2|]. right. left. now exists info. }
  destruct settled as [|m]; [|exact Hshort].
  destruct (pinataMetadata out req) as [name kv].
  destruct (PINATA_JWT env) as [jwt|]; [|exact Hshort].
  destruct (String.eqb jwt ""); [exact Hshort|].
  assert (Hlong : forall res : Ffmpeg.Outcome (string + option string),
            exists steps,
              trace (fst (emit (Posted {| formFile := o; formFilename := n; metaName := name;
                                          keyvalues := kv; cidVersion := 1;
                                          authorization := "Bearer " +:+ jwt |}) w3, res))
              = trace w ++ Probed i :: steps
              /\ (steps = []
                  \/ (exists info0, steps = [Spawned (transcodeArgs info0 (config env) i o)])
                  \/ (exists info0 form,
                        steps = [Spawned (transcodeArgs info0 (config env) i o); Posted form]
                        /\ formFile form = o))).
  { intros res. eexists. split.
    - cbn [fst trace emit]. rewrite H2, <- app_assoc. reflexivity.
    - right. right. eexists info, _. split; reflexivity. }
  destruct (upload out) as [m | [cid|]]; apply Hlong.
Qed.

Lemma attempt_disk_other env out req i n o (w : World) (q : string) :
  q <> o -> disk (fst (attempt env out req i n o w)) !! q = disk w !! q.
Proof.
  intros Hne. unfold attempt.
  destruct (execProbe (probe out)) as [[info | m] | err]; [|reflexivity..].
  destruct (Ffmpeg.runFfmpeg (ffmpeg out)) as [settled | err]; cbv zeta; [|reflexivity].
  assert (H3 : disk (if ffmpegWrote out
                     then setDisk (<[o := true]>
                                     (disk (emit (Spawned (transcodeArgs info (config env) i o))
                                              (emit (Probed i) w))))
                            (emit (Spawned (transcodeArgs info (config env) i o))
                               (emit (Probed i) w))
                     else emit (Spawned (transcodeArgs info (config env) i o))
                            (emit (Probed i) w)) !! q
               = disk w !! q).
  { destruct (ffmpegWrote out); simpl; [now rewrite lookup_insert_ne|reflexivity]. }
  remember (if ffmpegWrote out then _ else _) as w3 eqn:Hw3. clear Hw3.
  destruct settled as [|m]; [|exact H3].
  destruct (pinataMetadata out req) as [name kv].
  destruct (PINATA_JWT env) as [jwt|]; [|exact H3].
  destruct (String.eqb jwt ""); [exact H3|].
  destruct (upload out) as [m | [cid|]]; exact H3.
Qed.

(** When a child fails to start, the upload is where it was. *)
Lemma attempt_uncaught_disk env out req i n o (w : World) (err : string) :
  snd (attempt env out req i n o w) = Ffmpeg.Uncaught err ->
  disk (fst (attempt env out req i n o w)) = disk w.
Proof.
  unfold attempt.
  destruct (execProbe (probe out)) as [[info | m] | e0]; [|discriminate|reflexivity].
  destruct (Ffmpeg.runFfmpeg (ffmpeg out)) as [settled | e0]; cbv zeta; [|reflexivity].
  destruct settled as [|m]; [|discriminate].
  destruct (pinataMetadata out req) as [name kv].
  destruct (PINATA_JWT env) as [jwt|]; [|discriminate].
  destruct (String.eqb jwt ""); [discriminate|].
  destruct (upload out) as [m | [cid|]]; discriminate.
Qed.

(** The outcome of the [try] block, stage by stage. *)
Lemma attempt_result env out req i n o (w : World) :
  snd (attempt env out req i n o w)
  = match execProbe (probe out) with
    | Ffmpeg.Uncaught err => Ffmpeg.Uncaught err
    | Ffmpeg.Settles (inr m) => Ffmpeg.Settles (inl m)
    | Ffmpeg.Settles (inl _) =>
        match Ffmpeg.runFfmpeg (ffmpeg out) with
        | Ffmpeg.Uncaught err => Ffmpeg.Uncaught err
        | Ffmpeg.Settles (Ffmpeg.Rejected m) => Ffmpeg.Settles (inl m)
        | Ffmpeg.Settles Ffmpeg.Resolved =>
            if String.eqb (default "" (PINATA_JWT env)) ""
            then Ffmpeg.Settles (inl "PINATA_JWT not configured on server")
            else
              match upload out with
              | Server.UploadRejected m => Ffmpeg.Settles (inl m)
              | Server.UploadResolved None =>
                  Ffmpeg.Settles
                    (inl "Cannot destructure property 'IpfsHash' of 'resp.data' as it is undefined.")
              | Server.UploadResolved (Some cid) => Ffmpeg.Settles (inr cid)
              end
        end
    end.
Proof.
  unfold attempt.
  destruct (execProbe (probe out)) as [[info | m] | err]; [|reflexivity..].
  destruct (Ffmpeg.runFfmpeg (ffmpeg out)) as [[|m] | err]; cbv zeta; [|reflexivity..].
  destruct (pinataMetadata out req) as [name kv].
  destruct (PINATA_JWT env) as [jwt|]; [|reflexivity]. cbn [default id].
  destruct (String.eqb jwt ""); [reflexivity|].
  destruct (upload out) as [m | [cid|]]; reflexivity.
Qed.

Lemma transcode_with_file env out req (w : World) (f : UploadedFile) :
  file req = Some f ->
  let o := Server.pathJoin (tmpdir env) (uuidOutput out +:+ ".mp4") in
  let a := attempt env out req (path f) (uuidOutput out +:+ ".mp4") o w in
  transcode env out req w
  = match snd a with
    | Ffmpeg.Uncaught err => (fst a, Crashed err)
    | Ffmpeg.Settles result =>
        (unlinkQuietly o (unlinkQuietly (path f) (fst a)),
         Answered
           match result with
           | inr cid =>
               {| status := 200;
                  json := list_to_map
                            [ ("cid", Server.optStr cid);
                              ("gatewayUrl",
                               JStr (ProbeServer.gatewayUrl (PINATA_GATEWAY env)
                                       (default "undefined" cid))) ] |}
           | inl message =>
               {| status := 500;
                  json := {[ "error" := JStr (strOr (Some message) "Transcode failed") ]} |}
           end)
    end.
Proof.
  intros Hf o a. unfold transcode. rewrite Hf. cbv zeta. fold o. fold a.
  destruct a as [w1 [result | err]]; reflexivity.
Qed.

End ProbeStages.

(** X13: when the probe fails the probing server runs no encoder and
    uploads nothing: it answers 500 with the message of the probe error,
    and its only further steps are the two removals of the temporary
    files. *)
Theorem probe_failure_stops_pipeline
    (env : ProbeHandler.Env) (out : ProbeHandler.Outside) (req : ProbeHandler.Request)
    (w : ProbeHandler.World) (f : ProbeHandler.UploadedFile) (m : string) :
  ProbeHandler.file req = Some f ->
  ProbeServer.execProbe (ProbeHandler.probe out) = Ffmpeg.Settles (inr m) ->
  let r := ProbeHandler.transcode env out req w in
  let outputPath :=
    Server.pathJoin (ProbeHandler.tmpdir env) (ProbeHandler.uuidOutput out +:+ ".mp4") in
  (exists resp,
     snd r = ProbeHandler.Answered resp
     /\ ProbeHandler.status resp = 500%Z
     /\ Js.get (ProbeHandler.json resp) "error"
        = Js.JStr (Js.strOr (Some m) "Transcode failed")) /\
  exists b1 b2,
    ProbeHandler.trace (fst r)
    = ProbeHandler.trace w
      ++ [ ProbeHandler.Probed (ProbeHandler.path f);
           ProbeHandler.Unlinked (ProbeHandler.path f) b1;
           ProbeHandler.Unlinked outputPath b2 ].
Proof.
  intros Hf Hp r outputPath. subst r.
  unfold ProbeHandler.transcode. rewrite Hf. cbv zeta.
  unfold ProbeHandler.attempt. rewrite Hp. cbv zeta. cbn [fst snd].
  split; [eexists; split; [reflexivity|]; split; reflexivity|].
  fold outputPath.
  destruct (unlinkQuietly_trace' (ProbeHandler.path f)
              (ProbeHandler.emit (ProbeHandler.Probed (ProbeHandler.path f)) w))
    as [b1 H1].
  destruct (unlinkQuietly_trace' outputPath
              (ProbeHandler.unlinkQuietly (ProbeHandler.path f)
                 (ProbeHandler.emit (ProbeHandler.Probed (ProbeHandler.path f)) w)))
    as [b2 H2].
  exists b1, b2. rewrite H2, H1. simpl. rewrite <- !app_assoc. reflexivity.
Qed.

Lemma probe_failure_stops_pipeline_witness :
  ProbeHandler.file ProbeHandlerSample.request
  = Some {| ProbeHandler.path := "/tmp/1700000000000-kickflip.mov";
            ProbeHandler.mimetype := Some "video/quicktime" |} /\
  ProbeServer.execProbe (ProbeHandler.probe ProbeHandlerSample.probeFails)
  = Ffmpeg.Settles (inr "ffprobe failed: moov atom not found") /\
  exists resp,
    snd (ProbeHandler.transcode ProbeHandlerSample.env
           ProbeHandlerSample.probeFails ProbeHandlerSample.request
           ProbeHandlerSample.world0) = ProbeHandler.Answered resp
    /\ ProbeHandler.status resp = 500%Z
    /\ Js.get (ProbeHandler.json resp) "error"
       = Js.JStr "ffprobe failed: moov atom not found".
Proof.
  split; [reflexivity|]. split; [reflexivity|].
  exact (proj1 (probe_failure_stops_pipeline ProbeHandlerSample.env
                  ProbeHandlerSample.probeFails ProbeHandlerSample.request
                  ProbeHandlerSample.world0 _ _ eq_refl eq_refl)).
Defined.



Example blank_creators :
  let creatorOf (v : string) :=
    ProbeHandler.creatorOf
      {| ProbeHandler.file := None; ProbeHandler.body := {[ "creator" := v ]};
         ProbeHandler.userAgentHeader := None |} in
  creatorOf "" = "anonymous"
  /\ creatorOf (String (ascii_of_nat 9) " ") = "anonymous"
  /\ creatorOf (String Js.noBreakSpace "") = "anonymous"
  /\ creatorOf (String Js.noBreakSpace " bob ") = "bob".
Proof. cbv zeta. repeat split; reflexivity. Qed.

Example probing_server_end_to_end :
  let r := ProbeHandler.transcode ProbeHandlerSample.env ProbeHandlerSample.allGoesWell
             ProbeHandlerSample.request ProbeHandlerSample.world0 in
  (exists resp, snd r = ProbeHandler.Answered resp
                /\ Js.get (ProbeHandler.json resp) "gatewayUrl"
                   = Js.JStr "https://ipfs.skatehive.app/ipfs/bafybeigdyr")
  /\ ProbeHandler.creatorOf ProbeHandlerSample.request = "alice"
  /\ ProbeHandler.isMobile (ProbeHandler.userAgentOf ProbeHandlerSample.request) = true.
Proof. cbv zeta. split; [eexists; split; reflexivity|]. split; reflexivity. Qed.

(** X17: the token is looked for only after the probe and the encoder
    have run: without a configured token a request whose probe and
    encoding succeed is answered 500 with the message [PINATA_JWT not
    configured on server], both children having been run and nothing
    posted. *)
Theorem missing_token_after_encoding
    (env : ProbeHandler.Env) (out : ProbeHandler.Outside) (req : ProbeHandler.Request)
    (w : ProbeHandler.World) (f : ProbeHandler.UploadedFile) (info : ProbeServer.Info) :
  ProbeHandler.file req = Some f ->
  ProbeHandler.PINATA_JWT env = None \/ ProbeHandler.PINATA_JWT env = Some EmptyString ->
  ProbeServer.execProbe (ProbeHandler.probe out) = Ffmpeg.Settles (inl info) ->
  Ffmpeg.runFfmpeg (ProbeHandler.ffmpeg out) = Ffmpeg.Settles Ffmpeg.Resolved ->
  let r := ProbeHandler.transcode env out req w in
  let outputPath :=
    Server.pathJoin (ProbeHandler.tmpdir env) (ProbeHandler.uuidOutput out +:+ ".mp4") in
  (exists resp,
     snd r = ProbeHandler.Answered resp
     /\ ProbeHandler.status resp = 500%Z
     /\ Js.get (ProbeHandler.json resp) "error"
        = Js.JStr "PINATA_JWT not configured on server") /\
  exists b1 b2,
    ProbeHandler.trace (fst r)
    = ProbeHandler.trace w
      ++ [ ProbeHandler.Probed (ProbeHandler.path f);
           ProbeHandler.Spawned
             (ProbeServer.transcodeArgs info (ProbeHandler.config env)
                (ProbeHandler.path f) outputPath);
           ProbeHandler.Unlinked (ProbeHandler.path f) b1;
           ProbeHandler.Unlinked outputPath b2 ].
Proof.
  intros Hf Hjwt Hp Hr r outputPath. subst r.
  unfold ProbeHandler.transcode. rewrite Hf. cbv zeta. fold outputPath.
  unfold ProbeHandler.attempt. rewrite Hp, Hr. cbv zeta.
  set (w3 := if ProbeHandler.ffmpegWrote out then _ else _).
  assert (H3 : ProbeHandler.trace w3
               = ProbeHandler.trace w
                 ++ [ ProbeHandler.Probed (ProbeHandler.path f);
                      ProbeHandler.Spawned
                        (ProbeServer.transcodeArgs info (ProbeHandler.config env)
                           (ProbeHandler.path f) outputPath) ]).
  { subst w3. destruct (ProbeHandler.ffmpegWrote out); simpl; now rewrite <- app_assoc. }
  clearbody w3.
  destruct (ProbeHandler.pinataMetadata out req) as [name kv].
  assert (Hend : exists b1 b2,
            ProbeHandler.trace
              (ProbeHandler.unlinkQuietly outputPath
                 (ProbeHandler.unlinkQuietly (ProbeHandler.path f) w3))
            = ProbeHandler.trace w
              ++ [ ProbeHandler.Probed (ProbeHandler.path f);
                   ProbeHandler.Spawned
                     (ProbeServer.transcodeArgs info (ProbeHandler.config env)
                        (ProbeHandler.path f) outputPath);
                   ProbeHandler.Unlinked (ProbeHandler.path f) b1;
                   ProbeHandler.Unlinked outputPath b2 ]).
  { destruct (unlinkQuietly_trace' (ProbeHandler.path f) w3) as [b1 H1].
    destruct (unlinkQuietly_trace' outputPath
                (ProbeHandler.unlinkQuietly (ProbeHandler.path f) w3)) as [b2 H2].
    exists b1, b2. rewrite H2, H1, H3. rewrite <- !app_assoc. reflexivity. }
  destruct Hjwt as [-> | ->]; cbn [String.eqb fst snd];
    (split; [eexists; split; [reflexivity|]; split; reflexivity | exact Hend]).
Qed.

Lemma missing_token_after_encoding_witness :
  ProbeHandler.PINATA_JWT ProbeHandlerSample.noToken = None /\
  exists resp,
    snd (ProbeHandler.transcode ProbeHandlerSample.noToken ProbeHandlerSample.allGoesWell
           ProbeHandlerSample.request ProbeHandlerSample.world0)
    = ProbeHandler.Answered resp
    /\ ProbeHandler.status resp = 500%Z
    /\ Js.get (ProbeHandler.json resp) "error"
       = Js.JStr "PINATA_JWT not configured on server".
Proof.
  split; [reflexivity|].
  exact (proj1 (missing_token_after_encoding ProbeHandlerSample.noToken
                  ProbeHandlerSample.allGoesWell ProbeHandlerSample.request
                  ProbeHandlerSample.world0 _ _ eq_refl (or_introl eq_refl)
                  eq_refl eq_refl)).
Defined.

(** X18: the handler touches no file of the temporary directory but the
    uploaded file and its own output file: every other path is on the
    disk afterwards as it was before, however the request ends. *)
Theorem transcode_leaves_other_files
    (env : ProbeHandler.Env) (out : ProbeHandler.Outside) (req : ProbeHandler.Request)
    (w : ProbeHandler.World) (q : string) :
  (forall f, ProbeHandler.file req = Some f -> q <> ProbeHandler.path f) ->
  q <> Server.pathJoin (ProbeHandler.tmpdir env) (ProbeHandler.uuidOutput out +:+ ".mp4") ->
  ProbeHandler.disk (fst (ProbeHandler.transcode env out req w)) !! q
  = ProbeHandler.disk w !! q.
Proof.
  intros Hin Hout.
  destruct (ProbeHandler.file req) as [f|] eqn:Hf;
    [|unfold ProbeHandler.transcode; rewrite Hf; reflexivity].
  rewrite (transcode_with_file env out req w f Hf). cbv zeta.
  pose proof (attempt_disk_other env out req (ProbeHandler.path f)
                (ProbeHandler.uuidOutput out +:+ ".mp4") _ w q Hout) as Ha.
  destruct (snd (ProbeHandler.attempt env out req (ProbeHandler.path f)
                   (ProbeHandler.uuidOutput out +:+ ".mp4")
                   (Server.pathJoin (ProbeHandler.tmpdir env)
                      (ProbeHandler.uuidOutput out +:+ ".mp4")) w)) as [result | err];
    cbn [fst]; [|exact Ha].
  rewrite probe_unlink_other by exact Hout.
  rewrite probe_unlink_other by (apply Hin; reflexivity).
  exact Ha.
Qed.

Lemma transcode_leaves_other_files_witness :
  ProbeHandler.disk
    (fst (ProbeHandler.transcode ProbeHandlerSample.env ProbeHandlerSample.allGoesWell
            ProbeHandlerSample.request ProbeHandlerSample.sharedTmp))
  !! "/tmp/1700000000777-ollie.mp4" = Some true.
Proof.
  rewrite (transcode_leaves_other_files ProbeHandlerSample.env ProbeHandlerSample.allGoesWell
             ProbeHandlerSample.request ProbeHandlerSample.sharedTmp
             "/tmp/1700000000777-ollie.mp4").
  - reflexivity.
  - intros f Hf. injection Hf as <-. discriminate.
  - discriminate.
Defined.

(** X20: the handler does not look at what the pinning service answers
    beyond taking [IpfsHash] out of the body: when the body holds none,
    the request is still answered 200, without an identifier and with a
    gateway URL that ends in [/undefined]. *)
Theorem missing_identifier_is_a_success
    (env : ProbeHandler.Env) (out : ProbeHandler.Outside) (req : ProbeHandler.Request)
    (w : ProbeHandler.World) (f : ProbeHandler.UploadedFile) (info : ProbeServer.Info)
    (jwt : string) :
  ProbeHandler.file req = Some f ->
  ProbeServer.execProbe (ProbeHandler.probe out) = Ffmpeg.Settles (inl info) ->
  Ffmpeg.runFfmpeg (ProbeHandler.ffmpeg out) = Ffmpeg.Settles Ffmpeg.Resolved ->
  ProbeHandler.PINATA_JWT env = Some jwt -> jwt <> EmptyString ->
  ProbeHandler.upload out = Server.UploadResolved (Some None) ->
  exists resp,
    snd (ProbeHandler.transcode env out req w) = ProbeHandler.Answered resp
    /\ ProbeHandler.status resp = 200%Z
    /\ Js.get (ProbeHandler.json resp) "cid" = Js.JUndefined
    /\ Js.get (ProbeHandler.json resp) "gatewayUrl"
       = Js.JStr (Js.stripSlashes
                    (Js.strOr (ProbeHandler.PINATA_GATEWAY env)
                       "https://gateway.pinata.cloud/ipfs")
                  +:+ "/undefined").
Proof.
  intros Hf Hp Hr Hjwt Hne Hup.
  rewrite (transcode_with_file env out req w f Hf). cbv zeta.
  rewrite attempt_result, Hp, Hr, Hjwt, Hup. cbn [default id].
  destruct (String.eqb_spec jwt "") as [-> | _]; [now elim Hne|].
  eexists. split; [reflexivity|]. split; [reflexivity|]. split; reflexivity.
Qed.

Lemma missing_identifier_is_a_success_witness :
  ProbeHandler.upload ProbeHandlerSample.noIdentifier = Server.UploadResolved (Some None) /\
  exists resp,
    snd (ProbeHandler.transcode ProbeHandlerSample.env ProbeHandlerSample.noIdentifier
           ProbeHandlerSample.request ProbeHandlerSample.world0)
    = ProbeHandler.Answered resp
    /\ ProbeHandler.status resp = 200%Z
    /\ Js.get (ProbeHandler.json resp) "gatewayUrl"
       = Js.JStr "https://ipfs.skatehive.app/ipfs/undefined".
Proof.
  split; [reflexivity|].
  destruct (missing_identifier_is_a_success ProbeHandlerSample.env
              ProbeHandlerSample.noIdentifier ProbeHandlerSample.request
              ProbeHandlerSample.world0 _ _ "eyJhbGciOi" eq_refl eq_refl eq_refl eq_refl
              ltac:(discriminate) eq_refl) as (resp & Hr & Hs & _ & Hg).
  exists resp. split; [exact Hr|]. split; [exact Hs|]. exact Hg.
Defined.

(** X24: the probing server probes the uploaded file before anything
    else. Whenever it answers a request with a file, whichever stage
    failed or succeeded, it ends with one attempt to remove the uploaded
    file and one to remove the output file, and neither is left behind
    when its removal is permitted. When a child cannot be started the
    process ends with nothing removed: the temporary directory is as it
    was. A request without a file is answered 400 and nothing at all is
    run or removed. *)
Theorem probe_cleanup_always_attempted
    (env : ProbeHandler.Env) (out : ProbeHandler.Outside) (req : ProbeHandler.Request)
    (w : ProbeHandler.World) :
  let r := ProbeHandler.transcode env out req w in
  let outputPath :=
    Server.pathJoin (ProbeHandler.tmpdir env) (ProbeHandler.uuidOutput out +:+ ".mp4") in
  match ProbeHandler.file req with
  | None =>
      fst r = w
      /\ exists resp, snd r = ProbeHandler.Answered resp /\ ProbeHandler.status resp = 400%Z
  | Some f =>
      exists steps,
        ProbeHandler.stepsOf env (ProbeHandler.path f) outputPath steps
        /\ match snd r with
           | ProbeHandler.Answered _ =>
               (exists b1 b2,
                  ProbeHandler.trace (fst r)
                  = ProbeHandler.trace w
                    ++ ProbeHandler.Probed (ProbeHandler.path f) :: steps
                    ++ [ ProbeHandler.Unlinked (ProbeHandler.path f) b1;
                         ProbeHandler.Unlinked outputPath b2 ])
               /\ ProbeHandler.disk (fst r) !! ProbeHandler.path f <> Some true
               /\ ProbeHandler.disk (fst r) !! outputPath <> Some true
           | ProbeHandler.Crashed _ =>
               ProbeHandler.trace (fst r)
               = ProbeHandler.trace w ++ ProbeHandler.Probed (ProbeHandler.path f) :: steps
               /\ ProbeHandler.disk (fst r) = ProbeHandler.disk w
           end
  end.
Proof.
  intros r outputPath. subst r.
  destruct (ProbeHandler.file req) as [f|] eqn:Hf.
  2:{ unfold ProbeHandler.transcode. rewrite Hf.
      split; [reflexivity|]. eexists. split; reflexivity. }
  rewrite (transcode_with_file env out req w f Hf). cbv zeta. fold outputPath.
  destruct (attempt_trace env out req (ProbeHandler.path f)
              (ProbeHandler.uuidOutput out +:+ ".mp4") outputPath w)
    as (steps & Hsteps & Hshape).
  pose proof (attempt_uncaught_disk env out req (ProbeHandler.path f)
                (ProbeHandler.uuidOutput out +:+ ".mp4") outputPath w) as Hdisk.
  destruct (ProbeHandler.attempt env out req (ProbeHandler.path f)
              (ProbeHandler.uuidOutput out +:+ ".mp4") outputPath w) as [w1 [result | err]].
  - cbn [fst snd] in *. exists steps. split; [exact Hshape|]. split; [|split].
    + destruct (unlinkQuietly_trace' (ProbeHandler.path f) w1) as [b1 H1].
      destruct (unlinkQuietly_trace' outputPath
                  (ProbeHandler.unlinkQuietly (ProbeHandler.path f) w1)) as [b2 H2].
      exists b1, b2. rewrite H2, H1, Hsteps. rewrite <- !app_assoc. reflexivity.
    + apply probe_unlink_keeps_gone, probe_unlink_gone.
    + apply probe_unlink_gone.
  - cbn [fst snd] in *. exists steps. split; [exact Hshape|].
    split; [exact Hsteps | now apply (Hdisk err)].
Qed.

Example missing_encoder_leaves_the_upload :
  let r := ProbeHandler.transcode ProbeHandlerSample.env ProbeHandlerSample.noEncoder
             ProbeHandlerSample.request ProbeHandlerSample.world0 in
  snd r = ProbeHandler.Crashed "spawn ffmpeg ENOENT"
  /\ ProbeHandler.disk (fst r) !! "/tmp/1700000000000-kickflip.mov" = Some true
  /\ List.length (ProbeHandler.trace (fst r)) = 2%nat.
Proof. cbv zeta. repeat split; reflexivity. Qed.


(** ** The device label *)

(** X22: a device description sent with the form is used as it is;
    otherwise the label has three parts taken from fixed lists, and the
    order of the tests decides: a user agent that names [android] is
    [mobile]; one that names [mac] and not [windows] is [macos], so the
    user agents of iPhones and iPads, which say [like Mac OS X], are never
    [ios]; one that names [linux] and neither of the two is [linux], so
    the user agents of Android devices are never [android]. *)
Theorem parseDeviceInfo_labels (userAgent provided : string) :
  (provided <> EmptyString -> Server.parseDeviceInfo userAgent provided = provided) /\
  let ua := Js.toLowerCase userAgent in
  exists deviceType os browser,
    Server.parseDeviceInfo userAgent EmptyString
    = deviceType +:+ "/" +:+ os +:+ "/" +:+ browser
    /\ In deviceType ["mobile"; "tablet"; "desktop"]
    /\ In os ["windows"; "macos"; "linux"; "android"; "ios"; "unknown"]
    /\ In browser ["chrome"; "firefox"; "safari"; "edge"; "unknown"]
    /\ (Js.includes "android" ua = true -> deviceType = "mobile")
    /\ (Js.includes "windows" ua = false -> Js.includes "mac" ua = true -> os = "macos")
    /\ (Js.includes "windows" ua = false -> Js.includes "mac" ua = false ->
        Js.includes "linux" ua = true -> os = "linux")
    /\ (Js.includes "edg" ua = true -> browser <> "chrome").
Proof.
  split.
  - intros Hp. unfold Server.parseDeviceInfo.
    destruct (String.eqb_spec provided "") as [-> | _]; [now elim Hp | reflexivity].
  - intros ua. unfold Server.parseDeviceInfo. cbn [String.eqb negb]. fold ua.
    eexists _, _, _. split; [reflexivity|].
    split; [|split; [|split; [|split; [|split; [|split]]]]].
    + destruct (Js.includes "mobile" ua || Js.includes "android" ua);
        [|destruct (Js.includes "tablet" ua || Js.includes "ipad" ua)]; simpl; tauto.
    + destruct (Js.includes "windows" ua); [simpl; tauto|].
      destruct (Js.includes "mac" ua); [simpl; tauto|].
      destruct (Js.includes "linux" ua); [simpl; tauto|].
      destruct (Js.includes "android" ua); [simpl; tauto|].
      destruct (Js.includes "iphone" ua || Js.includes "ipad" ua); simpl; tauto.
    + destruct (Js.includes "chrome" ua && negb (Js.includes "edg" ua)); [simpl; tauto|].
      destruct (Js.includes "firefox" ua); [simpl; tauto|].
      destruct (Js.includes "safari" ua && negb (Js.includes "chrome" ua)); [simpl; tauto|].
      destruct (Js.includes "edg" ua); simpl; tauto.
    + intros ->. now rewrite orb_true_r.
    + intros -> ->. reflexivity.
    + intros -> -> ->. reflexivity.
    + intros ->. rewrite andb_false_r.
      destruct (Js.includes "firefox" ua); [discriminate|].
      destruct (Js.includes "safari" ua && negb (Js.includes "chrome" ua)); discriminate.
Qed.

Example device_labels_of_real_user_agents :
  Server.parseDeviceInfo
    "Mozilla/5.0 (iPhone; CPU iPhone OS 17_0 like Mac OS X) AppleWebKit/605.1.15 (KHTML, like Gecko) Version/17.0 Mobile/15E148 Safari/604.1"
    EmptyString = "mobile/macos/safari"
  /\ Server.parseDeviceInfo
       "Mozilla/5.0 (Linux; Android 14; Pixel 8) AppleWebKit/537.36 (KHTML, like Gecko) Chrome/120.0.0.0 Mobile Safari/537.36"
       EmptyString = "mobile/linux/chrome".
Proof. split; reflexivity. Qed.

(** ** Trailing slashes *)

Section SlashFacts.
Import Js Words.

Lemma allSlashes_last (s : string) :
  allSlashes s = true -> s <> EmptyString -> lastChar s = Some "/"%char.
Proof.
  induction s as [|c s IH]; intros H Hne; [now elim Hne|].
  simpl in H. apply andb_true_iff in H as [Hc Hs]. apply Ascii.eqb_eq in Hc. subst c.
  destruct s as [|d s]; [reflexivity|].
  change (lastChar (String "/" (String d s))) with (lastChar (String d s)).
  apply IH; [exact Hs | discriminate].
Qed.

Lemma stripSlashes_fixed (s : string) :
  lastChar s <> Some "/"%char -> stripSlashes s = s.
Proof.
  induction s as [|c s IH]; intros H; [reflexivity|].
  cbn [stripSlashes].
  destruct (Ascii.eqb c "/" && allSlashes s) eqn:Hall.
  - apply andb_true_iff in Hall as [Hc Hs]. apply Ascii.eqb_eq in Hc. subst c.
    elim H. apply (allSlashes_last (String "/" s)); [|discriminate].
    simpl. exact Hs.
  - f_equal. apply IH. destruct s as [|d s]; [discriminate|]. exact H.
Qed.

End SlashFacts.

(** X23: stripping the trailing slashes changes a string only when it
    ends in a slash, and stripping twice is stripping once, so a gateway
    base that was stripped when the server started is left as it is when
    the URL is built. *)
Theorem stripSlashes_idempotent (s : string) :
  Js.stripSlashes (Js.stripSlashes s) = Js.stripSlashes s /\
  (Js.stripSlashes s = s <-> Words.lastChar s <> Some "/"%char).
Proof.
  destruct (stripSlashes_spec s) as [k [Hk Hlast]].
  split; [now apply stripSlashes_fixed|]. split.
  - intros H. now rewrite <- H.
  - apply stripSlashes_fixed.
Qed.

(** ** The height in the scale filter *)

Section HeightFacts.
Import Js.

Lemma digitOf_pretty_N_char (d : N) :
  (d < 10)%N -> digitOf (pretty_N_char d) = Some (Z.of_N d).
Proof.
  intros H.
  assert (Hd : (d = 0 \/ d = 1 \/ d = 2 \/ d = 3 \/ d = 4 \/ d = 5 \/ d = 6
                \/ d = 7 \/ d = 8 \/ d = 9)%N) by lia.
  destruct Hd as [-> | [-> | [-> | [-> | [-> | [-> | [-> | [-> | [-> | ->]]]]]]]]];
    reflexivity.
Qed.

Lemma readDigits_pretty_N_go (x : N) (s : string) :
  (0 < x)%N ->
  readDigits None (pretty_N_go x s) = readDigits (Some (Z.of_N x)) s.
Proof.
  revert s. induction (N.lt_wf_0 x) as [x _ IH]. intros s Hx.
  rewrite pretty_N_go_step by exact Hx.
  assert (Hmod : (N.modulo x 10 < 10)%N) by (apply N.mod_lt; lia).
  assert (Hsplit : Z.of_N x = (10 * Z.of_N (N.div x 10) + Z.of_N (N.modulo x 10))%Z).
  { rewrite (N.div_mod x 10) at 1 by lia. lia. }
  destruct (N.eq_dec (N.div x 10) 0%N) as [H0 | Hne].
  - rewrite H0, pretty_N_go_0. cbn [readDigits].
    rewrite digitOf_pretty_N_char by exact Hmod. cbn [default option_rect].
    rewrite Hsplit, H0. reflexivity.
  - rewrite IH; [|apply N.div_lt; lia | lia]. cbn [readDigits].
    rewrite digitOf_pretty_N_char by exact Hmod. cbn [default].
    now rewrite Hsplit.
Qed.

Lemma pretty_N_go_head (x : N) (s : string) :
  (0 < x)%N ->
  exists d rest, (d < 10)%N /\ pretty_N_go x s = String (pretty_N_char d) rest.
Proof.
  revert s. induction (N.lt_wf_0 x) as [x _ IH]. intros s Hx.
  rewrite pretty_N_go_step by exact Hx.
  destruct (N.eq_dec (N.div x 10) 0%N) as [H0 | Hne].
  - rewrite H0, pretty_N_go_0. exists (N.modulo x 10)%N, s.
    split; [apply N.mod_lt; lia | reflexivity].
  - apply IH; [apply N.div_lt; lia | now apply N.neq_0_lt_0].
Qed.

Lemma parse_digits_string (d : N) (rest : string) :
  (d < 10)%N ->
  parseInt10 (String (pretty_N_char d) rest)
  = match readDigits None (String (pretty_N_char d) rest) with
    | None => PNaN
    | Some z => signedNumber false z
    end.
Proof.
  intros H.
  assert (Hd : (d = 0 \/ d = 1 \/ d = 2 \/ d = 3 \/ d = 4 \/ d = 5 \/ d = 6
                \/ d = 7 \/ d = 8 \/ d = 9)%N) by lia.
  destruct Hd as [-> | [-> | [-> | [-> | [-> | [-> | [-> | [-> | [-> | ->]]]]]]]]];
    reflexivity.
Qed.

Lemma digitOf_nonneg (c : ascii) (d : Z) : digitOf c = Some d -> (0 <= d)%Z.
Proof.
  unfold digitOf. destruct ((48 <=? nat_of_ascii c) && (nat_of_ascii c <=? 57))%nat;
    [|discriminate]. intros H. injection H as <-. lia.
Qed.

Lemma readDigits_nonneg (s : string) (acc : option Z) (z : Z) :
  (forall a, acc = Some a -> (0 <= a)%Z) ->
  readDigits acc s = Some z -> (0 <= z)%Z.
Proof.
  revert acc. induction s as [|c s IH]; intros acc Hacc H; simpl in H.
  - now apply Hacc.
  - destruct (digitOf c) as [d|] eqn:Hd; [|now apply Hacc].
    apply (IH (Some (10 * default 0 acc + d)%Z)); [|exact H].
    intros a Ha. injection Ha as <-. pose proof (digitOf_nonneg c d Hd).
    destruct acc as [a'|]; simpl; [specialize (Hacc a' eq_refl)|]; lia.
Qed.

Lemma toDouble_safe (z : Z) : (z < 2 ^ 53)%Z -> toDouble z = Some z.
Proof.
  intros Hz. unfold toDouble.
  destruct (Z.ltb_spec z (2 ^ 53)) as [_ | H]; [reflexivity | lia].
Qed.

Lemma parseInt10_pretty_pos (p : positive) :
  (Z.pos p < 2 ^ 53)%Z -> parseInt10 (pretty (Z.pos p)) = PInt (Z.pos p).
Proof.
  intros Hp. change (pretty (Z.pos p)) with (pretty_N_go (N.pos p) EmptyString).
  destruct (pretty_N_go_head (N.pos p) EmptyString) as (d & rest & Hd & Hhead); [lia|].
  pose proof (readDigits_pretty_N_go (N.pos p) EmptyString) as Hr.
  rewrite Hhead in *. rewrite parse_digits_string by exact Hd.
  rewrite Hr by lia. cbn [readDigits].
  change (Z.of_N (N.pos p)) with (Z.pos p).
  unfold signedNumber. now rewrite toDouble_safe.
Qed.

Lemma pretty_pos_not_empty (p : positive) : pretty (Z.pos p) <> EmptyString.
Proof.
  change (pretty (Z.pos p)) with (pretty_N_go (N.pos p) EmptyString).
  destruct (pretty_N_go_head (N.pos p) EmptyString) as (d & rest & _ & Hhead); [lia|].
  rewrite Hhead. discriminate.
Qed.

(** The height of the scale filter when the variable holds the decimal
    digits of a positive integer below [2^53]. *)
Lemma scaleHeight_digits (c : ProbeServer.Config) (h : Z) :
  (0 < h < 2 ^ 53)%Z ->
  ProbeServer.FFMPEG_MAX_HEIGHT c = Some (pretty h) ->
  ProbeServer.scaleHeight c = Some h.
Proof.
  intros [Hpos Hsafe] Henv. destruct h as [|p|p]; try lia.
  apply scaleHeight_iff. split; [|discriminate].
  unfold ProbeServer.maxH. rewrite Henv.
  destruct (String.eqb_spec (pretty (Z.pos p)) "") as [He | _].
  - now apply pretty_pos_not_empty in He.
  - now rewrite parseInt10_pretty_pos.
Qed.

End HeightFacts.

(** ** The scale filter of the full encode *)

(** C3, as stated, fails: with [FFMPEG_MAX_HEIGHT=1080] and a source that
    [ffprobe] reports as VP9 of 720 lines, the configured height is not
    below the height of the source, yet the encoder is started with the
    filter [scale=-2:1080]. *)
Lemma full_encode_upscales :
  match ProbeServer.probeOnClose ProbeSample.vp9Only with
  | inl info =>
      ProbeServer.height info = Js.JNum 720%float
      /\ ProbeServer.FFMPEG_MAX_HEIGHT ProbeSample.cap1080 = Some "1080"
      /\ ProbeServer.transcodeArgs info ProbeSample.cap1080 "in.webm" "out.mp4"
         = ["-y"; "-i"; "in.webm"; "-vf"; "scale=-2:1080";
            "-c:v"; "libx264"; "-preset"; "veryfast"; "-crf"; "22";
            "-threads"; "1"; "-c:a"; "aac"; "-b:a"; "128k";
            "-movflags"; "+faststart"; "out.mp4"]
  | inr _ => False
  end.
Proof. repeat split; reflexivity. Qed.

(** C3, amended: on the full-encode path the arguments of the encoder do
    not depend on the probed height: any two profiles that are not
    H.264/AAC get the same arguments. The scale filter is passed exactly
    when [FFMPEG_MAX_HEIGHT] parses to a finite number other than zero,
    and it carries that number, also when it is above the height of the
    source; for a variable that holds the digits of a positive integer
    below [2^53] the filter is [scale=-2:] followed by these digits; a
    variable that is unset, empty or [0] gives no filter. *)
Theorem full_encode_scales_to_configured_height
    (info info' : ProbeServer.Info) (c : ProbeServer.Config) (i o : string) :
  ~ (ProbeServer.vcodec info = Js.JStr "h264" /\ ProbeServer.acodec info = Js.JStr "aac") ->
  let tail :=
    ["-c:v"; "libx264";
     "-preset"; Js.strOr (ProbeServer.X264_PRESET c) "veryfast";
     "-crf"; Js.strOr (ProbeServer.X264_CRF c) "22";
     "-threads"; Js.strOr (ProbeServer.FFMPEG_THREADS c) "1";
     "-c:a"; "aac";
     "-b:a"; Js.strOr (ProbeServer.AAC_BITRATE c) "128k";
     "-movflags"; "+faststart"; o] in
  let args := ProbeServer.transcodeArgs info c i o in
  (forall h : Z,
     ProbeServer.maxH c = Some (Js.PInt h) -> h <> 0%Z ->
     args = ["-y"; "-i"; i; "-vf"; "scale=-2:" +:+ Js.showInteger h] ++ tail) /\
  ((forall h : Z, ~ (ProbeServer.maxH c = Some (Js.PInt h) /\ h <> 0%Z)) ->
   args = ["-y"; "-i"; i] ++ tail) /\
  (forall h : Z,
     (0 < h < 2 ^ 53)%Z ->
     ProbeServer.FFMPEG_MAX_HEIGHT c = Some (pretty h) ->
     args = ["-y"; "-i"; i; "-vf"; "scale=-2:" +:+ pretty h] ++ tail) /\
  (ProbeServer.FFMPEG_MAX_HEIGHT c = None
   \/ ProbeServer.FFMPEG_MAX_HEIGHT c = Some ""
   \/ ProbeServer.FFMPEG_MAX_HEIGHT c = Some "0" ->
   args = ["-y"; "-i"; i] ++ tail) /\
  (~ (ProbeServer.vcodec info' = Js.JStr "h264"
      /\ ProbeServer.acodec info' = Js.JStr "aac") ->
   ProbeServer.transcodeArgs info' c i o = args).
Proof.
  intros Hnot tail args.
  assert (Hargs : forall inf,
            ~ (ProbeServer.vcodec inf = Js.JStr "h264"
               /\ ProbeServer.acodec inf = Js.JStr "aac") ->
            ProbeServer.transcodeArgs inf c i o = ProbeServer.encodeArgs c i o).
  { intros inf Hn. unfold ProbeServer.transcodeArgs.
    destruct (ProbeServer.alreadyCompatible inf) eqn:Hc; [|reflexivity].
    apply alreadyCompatible_iff in Hc. now elim Hn. }
  assert (Hsome : forall h, ProbeServer.scaleHeight c = Some h ->
            args = ["-y"; "-i"; i; "-vf"; "scale=-2:" +:+ Js.showInteger h] ++ tail).
  { intros h Hs. subst args. rewrite (Hargs info Hnot).
    unfold ProbeServer.encodeArgs. now rewrite Hs. }
  assert (Hnone : ProbeServer.scaleHeight c = None -> args = ["-y"; "-i"; i] ++ tail).
  { intros Hs. subst args. rewrite (Hargs info Hnot).
    unfold ProbeServer.encodeArgs. now rewrite Hs. }
  split; [|split; [|split; [|split]]].
  - intros h Hh Hnz. apply Hsome. apply scaleHeight_iff. now split.
  - intros Hno. apply Hnone.
    destruct (ProbeServer.scaleHeight c) as [h|] eqn:Hs; [|reflexivity].
    apply scaleHeight_iff in Hs. now elim (Hno h).
  - intros h Hh Henv. rewrite (Hsome h (scaleHeight_digits c h Hh Henv)).
    rewrite showInteger_safe; [reflexivity|]. rewrite Z.abs_eq; lia.
  - intros Hunset. apply Hnone. unfold ProbeServer.scaleHeight, ProbeServer.maxH.
    destruct Hunset as [-> | [-> | ->]]; reflexivity.
  - intros Hnot'. subst args. now rewrite (Hargs info' Hnot'), (Hargs info Hnot).
Qed.

Lemma full_encode_scales_to_configured_height_witness :
  let source720 :=
    {| ProbeServer.vcodec := Js.JStr "vp9"; ProbeServer.acodec := Js.JNull;
       ProbeServer.width := Js.JNum 1280%float; ProbeServer.height := Js.JNum 720%float |} in
  let source2160 :=
    {| ProbeServer.vcodec := Js.JStr "hevc"; ProbeServer.acodec := Js.JStr "aac";
       ProbeServer.width := Js.JNum 3840%float; ProbeServer.height := Js.JNum 2160%float |} in
  ~ (ProbeServer.vcodec source720 = Js.JStr "h264"
     /\ ProbeServer.acodec source720 = Js.JStr "aac") /\
  ProbeServer.transcodeArgs source720 ProbeSample.cap1080 "in.webm" "out.mp4"
  = ["-y"; "-i"; "in.webm"; "-vf"; "scale=-2:1080";
     "-c:v"; "libx264"; "-preset"; "veryfast"; "-crf"; "22";
     "-threads"; "1"; "-c:a"; "aac"; "-b:a"; "128k";
     "-movflags"; "+faststart"; "out.mp4"] /\
  ProbeServer.transcodeArgs source2160 ProbeSample.cap1080 "in.webm" "out.mp4"
  = ProbeServer.transcodeArgs source720 ProbeSample.cap1080 "in.webm" "out.mp4".
Proof.
  intros source720 source2160.
  assert (Hnot : ~ (ProbeServer.vcodec source720 = Js.JStr "h264"
                    /\ ProbeServer.acodec source720 = Js.JStr "aac"))
    by (intros [H _]; discriminate).
  pose proof (full_encode_scales_to_configured_height source720 source2160
                ProbeSample.cap1080 "in.webm" "out.mp4" Hnot) as H.
  cbv zeta in H. destruct H as (_ & _ & Hdigits & _ & Hsame).
  split; [exact Hnot|]. split.
  - apply (Hdigits 1080%Z); [split; reflexivity | reflexivity].
  - apply Hsame. intros [H _]. discriminate.
Defined.

(** What [parseInt] and the template literal make of unusual values of
    the variable: leading white space, the no-break space included, a
    sign, zeros and text after the digits are dropped; an integer that is
    not a number is rounded to one; from [1e21] on the number is printed
    with an exponent; a height below zero is passed on as it is. *)
Example scale_filters_of_unusual_heights :
  let filterOf (v : string) :=
    ProbeServer.encodeArgs
      {| ProbeServer.FFMPEG_THREADS := None; ProbeServer.X264_PRESET := None;
         ProbeServer.X264_CRF := None; ProbeServer.AAC_BITRATE := None;
         ProbeServer.FFMPEG_MAX_HEIGHT := Some v |} "i" "o" !! 4%nat in
  filterOf " +0720px" = Some "scale=-2:720"
  /\ filterOf (String Js.noBreakSpace "720") = Some "scale=-2:720"
  /\ filterOf "-720" = Some "scale=-2:-720"
  /\ filterOf "9007199254740993" = Some "scale=-2:9007199254740992"
  /\ filterOf "1000000000000000000000" = Some "scale=-2:1e+21"
  /\ filterOf "720p" = Some "scale=-2:720"
  /\ filterOf "p720" = Some "libx264"
  /\ filterOf "0" = Some "libx264".
Proof. cbv zeta. repeat split; vm_compute; reflexivity. Qed.

(** X25: a positive height below [2^53] that the scale filter carries is
    written with its decimal digits and reads back as the same number:
    what [parseInt] made of [FFMPEG_MAX_HEIGHT] (white space or a plus
    sign in front, zeros in front, text after the digits) is what the
    encoder is given. *)
Theorem scale_height_round_trip (c : ProbeServer.Config) (h : Z) :
  ProbeServer.scaleHeight c = Some h ->
  (0 < h < 2 ^ 53)%Z ->
  Js.showInteger h = pretty h /\
  Js.parseInt10 (Js.showInteger h) = Js.PInt h /\
  (forall i o, exists pre post,
     ProbeServer.encodeArgs c i o = pre ++ ["-vf"; "scale=-2:" +:+ pretty h] ++ post).
Proof.
  intros Hs Hh.
  assert (Hshow : Js.showInteger h = pretty h).
  { apply showInteger_safe. rewrite Z.abs_eq; lia. }
  split; [exact Hshow|]. split.
  - rewrite Hshow. destruct h as [|p|p]; try lia.
    apply parseInt10_pretty_pos. lia.
  - intros i o. unfold ProbeServer.encodeArgs. rewrite Hs, Hshow.
    exists ["-y"; "-i"; i]. eexists. reflexivity.
Qed.

Lemma scale_height_round_trip_witness :
  ProbeServer.scaleHeight
    {| ProbeServer.FFMPEG_THREADS := None; ProbeServer.X264_PRESET := None;
       ProbeServer.X264_CRF := None; ProbeServer.AAC_BITRATE := None;
       ProbeServer.FFMPEG_MAX_HEIGHT := Some " +0720px" |} = Some 720%Z /\
  (0 < 720 < 2 ^ 53)%Z /\
  Js.parseInt10 (Js.showInteger 720) = Js.PInt 720.
Proof.
  assert (Hs : ProbeServer.scaleHeight
                 {| ProbeServer.FFMPEG_THREADS := None; ProbeServer.X264_PRESET := None;
                    ProbeServer.X264_CRF := None; ProbeServer.AAC_BITRATE := None;
                    ProbeServer.FFMPEG_MAX_HEIGHT := Some " +0720px" |} = Some 720%Z)
    by reflexivity.
  assert (Hh : (0 < 720 < 2 ^ 53)%Z) by (split; reflexivity).
  split; [exact Hs|]. split; [exact Hh|].
  exact (proj1 (proj2 (scale_height_round_trip _ 720%Z Hs Hh))).
Defined.
